(** * veilmail-webhook-ingester: signature verifier, storage adapters, router

    A shallow embedding of the TypeScript sources
      - types.ts, webhook-verifier.ts (verifyWebhookSignature),
      - adapters/base.ts, adapters/postgres.ts, adapters/mysql.ts,
        adapters/sqlite.ts, adapters/index.ts (createAdapter),
      - server.ts (the request handler of createIngesterServer),
      - cli.ts (the start-up sequence of main),
    followed by the properties of the specification stated over it.

    Conventions.
      - A JavaScript string is a [string]: the bytes of its UTF-8 encoding.
        A [Buffer] is a [list byte].
      - The 32-bit words of SHA-256 are [Z] with the wrap-around written
        out; HMAC-SHA-256 is implemented, not assumed.
      - A call that can throw returns a [Result]; an object a method
        mutates is passed in and returned.
      - The database is a finite map from table names to tables; a table
        is the list of its rows in insertion order.
      - [JSON.parse], [Date.parse] and the string conversion of objects are
        parameters of the router. *)

From Stdlib Require Import ZArith NArith List Ascii String Lia Permutation.
From Stdlib.Strings Require Import Byte.
From stdpp Require Import base strings gmap list sorting.
Import ListNotations.

Local Open Scope Z_scope.

(* ===================================================================== *)
(** ** node:crypto, SHA-256 (FIPS 180-4) and HMAC (RFC 2104)              *)
(* ===================================================================== *)

Module Sha256.

Definition wrap32 (x : Z) : Z := x mod 2 ^ 32.
Definition add32 (x y : Z) : Z := wrap32 (x + y).
Definition not32 (x : Z) : Z := Z.lxor x (2 ^ 32 - 1).
Definition rotr (n x : Z) : Z :=
  Z.lor (Z.shiftr x n) (wrap32 (Z.shiftl x (32 - n))).

Definition Ch (x y z : Z) : Z := Z.lxor (Z.land x y) (Z.land (not32 x) z).
Definition Maj (x y z : Z) : Z :=
  Z.lxor (Z.lxor (Z.land x y) (Z.land x z)) (Z.land y z).
Definition bsig0 (x : Z) : Z := Z.lxor (Z.lxor (rotr 2 x) (rotr 13 x)) (rotr 22 x).
Definition bsig1 (x : Z) : Z := Z.lxor (Z.lxor (rotr 6 x) (rotr 11 x)) (rotr 25 x).
Definition ssig0 (x : Z) : Z := Z.lxor (Z.lxor (rotr 7 x) (rotr 18 x)) (Z.shiftr x 3).
Definition ssig1 (x : Z) : Z := Z.lxor (Z.lxor (rotr 17 x) (rotr 19 x)) (Z.shiftr x 10).

(** The round constants are the first 32 bits of the fractional parts of
    the cube roots of the first 64 primes, the initial hash value those of
    the square roots of the first 8: they are computed, not tabulated. *)
Definition primes64 : list Z :=
  [2; 3; 5; 7; 11; 13; 17; 19; 23; 29; 31; 37; 41; 43; 47; 53;
   59; 61; 67; 71; 73; 79; 83; 89; 97; 101; 103; 107; 109; 113; 127; 131;
   137; 139; 149; 151; 157; 163; 167; 173; 179; 181; 191; 193; 197; 199; 211; 223;
   227; 229; 233; 239; 241; 251; 257; 263; 269; 271; 277; 281; 283; 293; 307; 311].

(** Integer cube root by bisection on the bits [b-1 .. 0]. *)
Fixpoint icbrt_bits (b : nat) (n r : Z) : Z :=
  match b with
  | O => r
  | S b' =>
      let c := r + 2 ^ Z.of_nat b' in
      icbrt_bits b' n (if c * c * c <=? n then c else r)
  end.
Definition icbrt (n : Z) : Z := icbrt_bits 40 n 0.

Definition K : list Z :=
  Eval vm_compute in map (fun p => wrap32 (icbrt (p * 2 ^ 96))) primes64.
Definition H0 : list Z :=
  Eval vm_compute in map (fun p => wrap32 (Z.sqrt (p * 2 ^ 64))) (firstn 8 primes64).

Record state := St { sa : Z; sb : Z; sc : Z; sd : Z; se : Z; sf : Z; sg : Z; sh : Z }.

Definition init : state :=
  match H0 with
  | [a; b; c; d; e; f; g; h] => St a b c d e f g h
  | _ => St 0 0 0 0 0 0 0 0
  end.

(** Padding: 0x80, zeros up to 56 mod 64, then the bit length on 8 bytes. *)
Definition be_bytes (n : nat) (x : Z) : list Z :=
  map (fun i => Z.shiftr x (8 * Z.of_nat i) mod 256) (rev (seq 0 n)).

Definition pad (msg : list Z) : list Z :=
  let len := Z.of_nat (List.length msg) in
  msg ++ [128] ++ repeat 0 (Z.to_nat ((55 - len) mod 64)) ++ be_bytes 8 (8 * len).

Fixpoint chunks (fuel n : nat) (l : list Z) : list (list Z) :=
  match fuel with
  | O => []
  | S fuel' =>
      match l with
      | [] => []
      | _ => firstn n l :: chunks fuel' n (skipn n l)
      end
  end.

Definition be_word (bs : list Z) : Z :=
  fold_left (fun acc b => acc * 256 + b) bs 0.

Definition block_words (blk : list Z) : list Z :=
  map be_word (chunks 16 4 blk).

(** Message schedule, kept most recent word first while it is extended. *)
Fixpoint extend (n : nat) (rw : list Z) : list Z :=
  match n with
  | O => rw
  | S n' =>
      let w := add32 (add32 (ssig1 (nth 1 rw 0)) (nth 6 rw 0))
                     (add32 (ssig0 (nth 14 rw 0)) (nth 15 rw 0)) in
      extend n' (w :: rw)
  end.

Definition schedule (blk : list Z) : list Z :=
  rev (extend 48 (rev (block_words blk))).

Definition round (s : state) (kw : Z * Z) : state :=
  let '(k, w) := kw in
  let t1 := add32 (add32 (add32 (add32 (sh s) (bsig1 (se s))) (Ch (se s) (sf s) (sg s))) k) w in
  let t2 := add32 (bsig0 (sa s)) (Maj (sa s) (sb s) (sc s)) in
  St (add32 t1 t2) (sa s) (sb s) (sc s) (add32 (sd s) t1) (se s) (sf s) (sg s).

Definition compress (s : state) (blk : list Z) : state :=
  let r := fold_left round (combine K (schedule blk)) s in
  St (add32 (sa s) (sa r)) (add32 (sb s) (sb r)) (add32 (sc s) (sc r))
     (add32 (sd s) (sd r)) (add32 (se s) (se r)) (add32 (sf s) (sf r))
     (add32 (sg s) (sg r)) (add32 (sh s) (sh r)).

Definition digest_bytes (s : state) : list Z :=
  be_bytes 4 (sa s) ++ be_bytes 4 (sb s) ++ be_bytes 4 (sc s) ++ be_bytes 4 (sd s) ++
  be_bytes 4 (se s) ++ be_bytes 4 (sf s) ++ be_bytes 4 (sg s) ++ be_bytes 4 (sh s).

Definition sha256 (msg : list Z) : list Z :=
  let p := pad msg in
  digest_bytes (fold_left compress (chunks (List.length p) 64 p) init).

(** HMAC with block size 64: a key longer than a block is hashed first. *)
Definition hmac_key (key : list Z) : list Z :=
  let k := if (64 <? Z.of_nat (List.length key)) then sha256 key else key in
  k ++ repeat 0 (64 - List.length k)%nat.

Definition hmac (key msg : list Z) : list Z :=
  let k := hmac_key key in
  sha256 (map (Z.lxor 92) k ++ sha256 (map (Z.lxor 54) k ++ msg)).

End Sha256.

(* ===================================================================== *)
(** ** Buffers and strings                                                *)
(* ===================================================================== *)

Definition Buffer := list byte.

Definition byte_to_Z (b : byte) : Z := Z.of_N (Byte.to_N b).
Definition byte_of_Z (z : Z) : byte :=
  match Byte.of_N (Z.to_N (z mod 256)) with
  | Some b => b
  | None => x00
  end.

(** [Buffer.from(s, 'utf8')]: strings are kept as their UTF-8 bytes. *)
Definition utf8 (s : string) : list Z := map byte_to_Z (list_byte_of_string s).

(** [createHmac('sha256', secret).update(payload, 'utf8')]: the raw digest. *)
Definition hmacSha256 (secret payload : string) : Buffer :=
  map byte_of_Z (Sha256.hmac (utf8 secret) (utf8 payload)).

Definition hexDigit (n : Z) : ascii :=
  if n <? 10 then ascii_of_N (Z.to_N (48 + n)) else ascii_of_N (Z.to_N (87 + n)).

(** [.digest('hex')] and [buf.toString('hex')]: two lower-case digits a byte. *)
Fixpoint hexEncode (b : Buffer) : string :=
  match b with
  | [] => EmptyString
  | x :: rest =>
      String (hexDigit (byte_to_Z x / 16))
        (String (hexDigit (byte_to_Z x mod 16)) (hexEncode rest))
  end.

(** The value of one hex digit, either case; [None] for any other character. *)
Definition unhex (c : ascii) : option Z :=
  let n := Z.of_N (N_of_ascii c) in
  if (48 <=? n) && (n <=? 57) then Some (n - 48)
  else if (97 <=? n) && (n <=? 102) then Some (n - 87)
  else if (65 <=? n) && (n <=? 70) then Some (n - 55)
  else None.

(** [Buffer.from(s, 'hex')]: decodes pairs of hex digits and stops, without
    throwing, at the first pair that is not two hex digits; a trailing odd
    character is dropped. *)
Fixpoint Buffer_from_hex (s : string) : Buffer :=
  match s with
  | String c1 (String c2 rest) =>
      match unhex c1, unhex c2 with
      | Some a, Some b => byte_of_Z (16 * a + b) :: Buffer_from_hex rest
      | _, _ => []
      end
  | _ => []
  end.

(** [crypto.timingSafeEqual(a, b)]: throws ([None]) when the byte lengths
    differ; otherwise ORs the XOR of every pair of bytes, looking at all of
    them, and compares the accumulator with zero. *)
Definition timingSafeEqual (a b : Buffer) : option bool :=
  if Nat.eqb (List.length a) (List.length b)
  then Some (fold_left (fun acc p => Z.lor acc (Z.lxor (byte_to_Z (fst p)) (byte_to_Z (snd p))))
                       (combine a b) 0 =? 0)
  else None.

(** JavaScript truthiness of a string: [!s] holds exactly for the empty one. *)
Definition str_falsy (s : string) : bool :=
  match s with EmptyString => true | _ => false end.

(* ===================================================================== *)
(** ** webhook-verifier.ts                                                *)
(* ===================================================================== *)

Definition verifyWebhookSignature (payload signature secret : string) : bool :=
  if str_falsy payload || str_falsy signature || str_falsy secret then false
  else
    let expected := hexEncode (hmacSha256 secret payload) in
    let signatureBuffer := Buffer_from_hex signature in
    let expectedBuffer := Buffer_from_hex expected in
    if negb (Nat.eqb (List.length signatureBuffer) (List.length expectedBuffer))
    then false
    else
      match timingSafeEqual signatureBuffer expectedBuffer with
      | Some r => r
      | None => false   (* the catch block *)
      end.

(* ===================================================================== *)
(** ** types.ts                                                           *)
(* ===================================================================== *)

(** A parsed JSON document.  Numbers are kept as integers; an object keeps
    its members in source order. *)
#[warnings="-register-all"]
Inductive JSON :=
| JNull
| JBool (b : bool)
| JNum (n : Z)
| JStr (s : string)
| JArr (items : list JSON)
| JObj (members : list (string * JSON)).

(** A JavaScript [Date]: a time value in milliseconds since the epoch, or
    the invalid date (time value NaN). *)
Inductive Date :=
| ValidDate (ms : Z)
| InvalidDate.

(** [WebhookEvent]; [ev_id] is its field [id]. *)
Record WebhookEvent := mkEvent {
  ev_id : string;
  event_type : string;
  event_id : string;
  data : JSON;
  created_at : Date;
  received_at : Date
}.

Inductive DatabaseType := postgres | mysql | sqlite.

Record DatabaseConfig := mkDatabaseConfig {
  db_type : DatabaseType;
  db_url : string
}.

Record IngesterConfig := mkConfig {
  port : Z;
  secret : string;
  database : DatabaseConfig;
  cfg_tableName : string
}.

(** [QueryOptions]: every field is optional; [limit] and [offset] are
    JavaScript numbers, here integers. *)
Record QueryOptions := mkQuery {
  q_type : option string;
  q_limit : option Z;
  q_offset : option Z
}.

(* ===================================================================== *)
(** ** Exceptions and results                                             *)
(* ===================================================================== *)

Inductive Exn :=
| Error (message : string)        (* [new Error(...)] thrown by the adapters *)
| RangeError (message : string)   (* [toISOString] of an invalid date *)
| TypeError (message : string)    (* a property read on [null] *)
| DriverError (code : string).    (* a rejection coming from the database driver *)

Inductive Result (A : Type) :=
| Ok (a : A)
| Throw (e : Exn).
Arguments Ok {A} a.
Arguments Throw {A} e.

Definition rbind {A B} (r : Result A) (k : A -> Result B) : Result B :=
  match r with
  | Ok a => k a
  | Throw e => Throw e
  end.
Notation "x <-! r ;; k" := (rbind r (fun x => k))
  (at level 100, r at next level, right associativity).

(** [Date.prototype.toISOString]: throws a RangeError on the invalid date.
    The ISO text of a valid date is represented by its time value. *)
Definition toISOString (d : Date) : Result Z :=
  match d with
  | ValidDate ms => Ok ms
  | InvalidDate => Throw (RangeError "Invalid time value")
  end.

(* ===================================================================== *)
(** ** The backing store                                                  *)
(* ===================================================================== *)

(** The three engines are modelled at the level their SQL statements are
    written at.  A text column holds the string bound to it and compares by
    exact equality; a timestamp column holds the instant that the bound ISO
    text denotes and orders chronologically; the document column holds the
    document, whose text or JSONB encoding is read back unchanged.  What an
    engine adds below that level (the width of VARCHAR(255), the
    case-insensitive collation of the MySQL table, the range of its
    DATETIME, the time zone a driver reads a timestamp in) is not part of
    the model. *)

(** One row of the events table. *)
Record Row := mkRow {
  row_id : string;
  row_event_type : string;
  row_event_id : string;
  row_data : JSON;
  row_created_at : Z;
  row_received_at : Z
}.

Abbreviation Table := (list Row).

(** What an adapter talks to: whether the driver package can be imported,
    whether the server (or the database file) can be reached, whether the
    WAL pragma is accepted, and the tables of the database by name. *)
Record World := mkWorld {
  driver_installed : bool;
  reachable : bool;
  wal_ok : bool;
  tables : gmap string (list Row)
}.

Definition set_tables (w : World) (t : gmap string (list Row)) : World :=
  mkWorld (driver_installed w) (reachable w) (wal_ok w) t.

(** [CREATE TABLE IF NOT EXISTS name (...)]: an existing table is left as it
    is.  The indexes the adapters create change no result and are omitted. *)
Definition sql_create_table (name : string) (db : gmap string (list Row))
  : gmap string (list Row) :=
  match db !! name with
  | Some _ => db
  | None => <[name := []]> db
  end.

(** The table has [id] as PRIMARY KEY and [event_id] UNIQUE.  The three
    INSERT statements differ in the conflicts they swallow:
    [ON CONFLICT (event_id) DO NOTHING] only those on [event_id] (a clash on
    the primary key alone is a unique violation), [INSERT IGNORE] and
    [INSERT OR IGNORE] any of them. *)
Inductive ConflictClause :=
| OnConflictEventIdDoNothing
| IgnoreAny.

Definition has_event_id (eid : string) (t : list Row) : bool :=
  existsb (fun r => bool_decide (row_event_id r = eid)) t.
Definition has_id (i : string) (t : list Row) : bool :=
  existsb (fun r => bool_decide (row_id r = i)) t.

Definition sql_insert (c : ConflictClause) (name : string) (r : Row)
    (db : gmap string (list Row)) : Result (gmap string (list Row)) :=
  match db !! name with
  | None => Throw (DriverError "no such table")
  | Some t =>
      if has_event_id (row_event_id r) t then Ok db
      else if has_id (row_id r) t then
        match c with
        | IgnoreAny => Ok db
        | OnConflictEventIdDoNothing => Throw (DriverError "unique_violation")
        end
      else Ok (<[name := t ++ [r]]> db)
  end.

(** [ORDER BY created_at DESC]. *)
Definition created_desc (r1 r2 : Row) : Prop := row_created_at r2 <= row_created_at r1.
#[global] Instance created_desc_dec r1 r2 : Decision (created_desc r1 r2) :=
  Z_le_dec (row_created_at r2) (row_created_at r1).

Definition type_matches (ty : option string) (r : Row) : bool :=
  match ty with
  | Some t => bool_decide (row_event_type r = t)
  | None => true
  end.

(** [SELECT ... [WHERE event_type = ty] ORDER BY created_at DESC LIMIT l
    OFFSET o] with a row count [l] ([None]: no bound) and [o] rows skipped. *)
Definition sql_select (ty : option string) (l : option nat) (o : nat)
    (t : list Row) : list Row :=
  let sorted := merge_sort created_desc (List.filter (type_matches ty) t) in
  match l with
  | Some n => firstn n (skipn o sorted)
  | None => skipn o sorted
  end.

(** Negative LIMIT and OFFSET: PostgreSQL and MySQL reject the statement,
    SQLite reads a negative LIMIT as no bound and a negative OFFSET as 0. *)
Definition sql_select_strict (ty : option string) (l o : Z) (name : string)
    (db : gmap string (list Row)) : Result (list Row) :=
  match db !! name with
  | None => Throw (DriverError "no such table")
  | Some t =>
      if (l <? 0) || (o <? 0) then Throw (DriverError "negative LIMIT or OFFSET")
      else Ok (sql_select ty (Some (Z.to_nat l)) (Z.to_nat o) t)
  end.

Definition sql_select_sqlite (ty : option string) (l o : Z) (name : string)
    (db : gmap string (list Row)) : Result (list Row) :=
  match db !! name with
  | None => Throw (DriverError "no such table")
  | Some t =>
      Ok (sql_select ty (if l <? 0 then None else Some (Z.to_nat l)) (Z.to_nat o) t)
  end.

(** The values bound to the INSERT statement: both dates go through
    [toISOString] while the argument list is built. *)
Definition insert_params (e : WebhookEvent) : Result Row :=
  c <-! toISOString (created_at e) ;;
  r <-! toISOString (received_at e) ;;
  Ok (mkRow (ev_id e) (event_type e) (event_id e) (data e) c r).

(** The row mapper of [query]: the stored document parsed back, the
    timestamp columns turned into dates. *)
Definition row_to_event (r : Row) : WebhookEvent :=
  mkEvent (row_id r) (row_event_type r) (row_event_id r) (row_data r)
          (ValidDate (row_created_at r)) (ValidDate (row_received_at r)).

(** [options?.type] in a condition: absent and the empty string are both
    falsy, so no WHERE clause is built for them. *)
Definition type_condition (options : option QueryOptions) : option string :=
  match options ≫= q_type with
  | Some t => if str_falsy t then None else Some t
  | None => None
  end.
Definition limit_of (options : option QueryOptions) : Z := default 50 (options ≫= q_limit).
Definition offset_of (options : option QueryOptions) : Z := default 0 (options ≫= q_offset).

Definition dq : string := String "034" EmptyString.

(* ===================================================================== *)
(** ** adapters/base.ts: the interface of a storage adapter               *)
(* ===================================================================== *)

(** [connect] and [close] change the adapter object, [createTable] and
    [insert] the database; a method that throws has changed nothing else
    than what its result shows. *)
Class DatabaseAdapter (A : Type) := {
  connect : A -> World -> A * Result unit;
  createTable : A -> World -> Result World;
  insert : A -> WebhookEvent -> World -> Result World;
  query : A -> option QueryOptions -> World -> Result (list WebhookEvent);
  close : A -> World -> A * Result unit
}.

(* ===================================================================== *)
(** ** adapters/postgres.ts                                               *)
(* ===================================================================== *)

Module PostgresAdapter.

(** [pool] is [Some] once [new Pool(...)] has been assigned. *)
Record t := new {
  pool : option string;
  connectionString : string;
  tableName : string
}.

Definition constructor (connectionString tableName : string) : t :=
  new None connectionString tableName.

Definition ensureConnected (a : t) : Result unit :=
  match pool a with
  | Some _ => Ok tt
  | None => Throw (Error "PostgreSQL adapter is not connected. Call connect() first.")
  end.

Definition connect (a : t) (w : World) : t * Result unit :=
  if negb (driver_installed w)
  then (a, Throw (Error ("The " +:+ dq +:+ "pg" +:+ dq +:+
          " package is required for PostgreSQL support. Install it with: npm install pg")))
  else
    let a' := new (Some (connectionString a)) (connectionString a) (tableName a) in
    (* Verify the connection works *)
    if reachable w then (a', Ok tt) else (a', Throw (DriverError "ECONNREFUSED")).

Definition createTable (a : t) (w : World) : Result World :=
  _ <-! ensureConnected a ;;
  if reachable w
  then Ok (set_tables w (sql_create_table (tableName a) (tables w)))
  else Throw (DriverError "ECONNREFUSED").

Definition insert (a : t) (event : WebhookEvent) (w : World) : Result World :=
  _ <-! ensureConnected a ;;
  row <-! insert_params event ;;
  if reachable w
  then db <-! sql_insert OnConflictEventIdDoNothing (tableName a) row (tables w) ;;
       Ok (set_tables w db)
  else Throw (DriverError "ECONNREFUSED").

Definition query (a : t) (options : option QueryOptions) (w : World)
  : Result (list WebhookEvent) :=
  _ <-! ensureConnected a ;;
  let limit := limit_of options in
  let offset := offset_of options in
  if reachable w
  then rows <-! sql_select_strict (type_condition options) limit offset
                  (tableName a) (tables w) ;;
       Ok (map row_to_event rows)
  else Throw (DriverError "ECONNREFUSED").

Definition close (a : t) (w : World) : t * Result unit :=
  match pool a with
  | Some _ => (new None (connectionString a) (tableName a), Ok tt)
  | None => (a, Ok tt)
  end.

End PostgresAdapter.

(* ===================================================================== *)
(** ** adapters/mysql.ts                                                  *)
(* ===================================================================== *)

Module MysqlAdapter.

Record t := new {
  pool : option string;
  connectionString : string;
  tableName : string
}.

Definition constructor (connectionString tableName : string) : t :=
  new None connectionString tableName.

Definition ensureConnected (a : t) : Result unit :=
  match pool a with
  | Some _ => Ok tt
  | None => Throw (Error "MySQL adapter is not connected. Call connect() first.")
  end.

Definition connect (a : t) (w : World) : t * Result unit :=
  if negb (driver_installed w)
  then (a, Throw (Error ("The " +:+ dq +:+ "mysql2" +:+ dq +:+
          " package is required for MySQL support. Install it with: npm install mysql2")))
  else
    let a' := new (Some (connectionString a)) (connectionString a) (tableName a) in
    (* Verify the connection works *)
    if reachable w then (a', Ok tt) else (a', Throw (DriverError "ECONNREFUSED")).

Definition createTable (a : t) (w : World) : Result World :=
  _ <-! ensureConnected a ;;
  if reachable w
  then Ok (set_tables w (sql_create_table (tableName a) (tables w)))
  else Throw (DriverError "ECONNREFUSED").

Definition insert (a : t) (event : WebhookEvent) (w : World) : Result World :=
  _ <-! ensureConnected a ;;
  row <-! insert_params event ;;
  if reachable w
  then db <-! sql_insert IgnoreAny (tableName a) row (tables w) ;;
       Ok (set_tables w db)
  else Throw (DriverError "ECONNREFUSED").

Definition query (a : t) (options : option QueryOptions) (w : World)
  : Result (list WebhookEvent) :=
  _ <-! ensureConnected a ;;
  let limit := limit_of options in
  let offset := offset_of options in
  if reachable w
  then rows <-! sql_select_strict (type_condition options) limit offset
                  (tableName a) (tables w) ;;
       Ok (map row_to_event rows)
  else Throw (DriverError "ECONNREFUSED").

Definition close (a : t) (w : World) : t * Result unit :=
  match pool a with
  | Some _ => (new None (connectionString a) (tableName a), Ok tt)
  | None => (a, Ok tt)
  end.

End MysqlAdapter.

(* ===================================================================== *)
(** ** adapters/sqlite.ts                                                 *)
(* ===================================================================== *)

Module SqliteAdapter.

(** [db] is [Some] once [new Database(filePath)] has returned. *)
Record t := new {
  db : option string;
  filePath : string;
  tableName : string
}.

Definition constructor (filePath tableName : string) : t :=
  new None filePath tableName.

Definition ensureConnected (a : t) : Result unit :=
  match db a with
  | Some _ => Ok tt
  | None => Throw (Error "SQLite adapter is not connected. Call connect() first.")
  end.

Definition connect (a : t) (w : World) : t * Result unit :=
  if negb (driver_installed w)
  then (a, Throw (Error ("The " +:+ dq +:+ "better-sqlite3" +:+ dq +:+
          " package is required for SQLite support. Install it with: npm install better-sqlite3")))
  else if negb (reachable w)
  then (a, Throw (DriverError "SQLITE_CANTOPEN"))
  else
    let a' := new (Some (filePath a)) (filePath a) (tableName a) in
    (* Enable WAL mode for better concurrent access *)
    if wal_ok w then (a', Ok tt) else (a', Throw (DriverError "SQLITE_ERROR")).

Definition createTable (a : t) (w : World) : Result World :=
  _ <-! ensureConnected a ;;
  Ok (set_tables w (sql_create_table (tableName a) (tables w))).

(** [prepare] compiles the statement, so a missing table is reported
    before the arguments of [run] are evaluated. *)
Definition insert (a : t) (event : WebhookEvent) (w : World) : Result World :=
  _ <-! ensureConnected a ;;
  match tables w !! tableName a with
  | None => Throw (DriverError "no such table")
  | Some _ =>
      row <-! insert_params event ;;
      db <-! sql_insert IgnoreAny (tableName a) row (tables w) ;;
      Ok (set_tables w db)
  end.

Definition query (a : t) (options : option QueryOptions) (w : World)
  : Result (list WebhookEvent) :=
  _ <-! ensureConnected a ;;
  let limit := limit_of options in
  let offset := offset_of options in
  rows <-! sql_select_sqlite (type_condition options) limit offset
             (tableName a) (tables w) ;;
  Ok (map row_to_event rows).

Definition close (a : t) (w : World) : t * Result unit :=
  match db a with
  | Some _ => (new None (filePath a) (tableName a), Ok tt)
  | None => (a, Ok tt)
  end.

End SqliteAdapter.

#[global] Instance PostgresAdapter_impl : DatabaseAdapter PostgresAdapter.t := {
  connect := PostgresAdapter.connect;
  createTable := PostgresAdapter.createTable;
  insert := PostgresAdapter.insert;
  query := PostgresAdapter.query;
  close := PostgresAdapter.close
}.

#[global] Instance MysqlAdapter_impl : DatabaseAdapter MysqlAdapter.t := {
  connect := MysqlAdapter.connect;
  createTable := MysqlAdapter.createTable;
  insert := MysqlAdapter.insert;
  query := MysqlAdapter.query;
  close := MysqlAdapter.close
}.

#[global] Instance SqliteAdapter_impl : DatabaseAdapter SqliteAdapter.t := {
  connect := SqliteAdapter.connect;
  createTable := SqliteAdapter.createTable;
  insert := SqliteAdapter.insert;
  query := SqliteAdapter.query;
  close := SqliteAdapter.close
}.

(* ===================================================================== *)
(** ** adapters/index.ts                                                  *)
(* ===================================================================== *)

(** What [createAdapter] returns: an adapter of one of the three classes. *)
Inductive Adapter :=
| OfPostgres (a : PostgresAdapter.t)
| OfMysql (a : MysqlAdapter.t)
| OfSqlite (a : SqliteAdapter.t).

(** [tableName] is the optional second argument; [config.type] ranges over
    the three members of [DatabaseType], so the [default:] branch that
    throws on any other value is not reached. *)
Definition createAdapter (config : DatabaseConfig) (tableName : option string) : Adapter :=
  let tableName := default "veilmail_webhook_events" tableName in
  match db_type config with
  | postgres => OfPostgres (PostgresAdapter.constructor (db_url config) tableName)
  | mysql => OfMysql (MysqlAdapter.constructor (db_url config) tableName)
  | sqlite => OfSqlite (SqliteAdapter.constructor (db_url config) tableName)
  end.

Definition lift1 {A B : Type} (f : A -> B) (p : A * Result unit) : B * Result unit :=
  (f (fst p), snd p).

#[global] Instance Adapter_impl : DatabaseAdapter Adapter := {
  connect a w :=
    match a with
    | OfPostgres p => lift1 OfPostgres (connect p w)
    | OfMysql m => lift1 OfMysql (connect m w)
    | OfSqlite s => lift1 OfSqlite (connect s w)
    end;
  createTable a w :=
    match a with
    | OfPostgres p => createTable p w
    | OfMysql m => createTable m w
    | OfSqlite s => createTable s w
    end;
  insert a e w :=
    match a with
    | OfPostgres p => insert p e w
    | OfMysql m => insert m e w
    | OfSqlite s => insert s e w
    end;
  query a o w :=
    match a with
    | OfPostgres p => query p o w
    | OfMysql m => query m o w
    | OfSqlite s => query s o w
    end;
  close a w :=
    match a with
    | OfPostgres p => lift1 OfPostgres (close p w)
    | OfMysql m => lift1 OfMysql (close m w)
    | OfSqlite s => lift1 OfSqlite (close s w)
    end
}.

(** The table an adapter operates on and whether it holds a pool or handle. *)
Definition adapter_table (a : Adapter) : string :=
  match a with
  | OfPostgres p => PostgresAdapter.tableName p
  | OfMysql m => MysqlAdapter.tableName m
  | OfSqlite s => SqliteAdapter.tableName s
  end.

Definition adapter_kind (a : Adapter) : DatabaseType :=
  match a with
  | OfPostgres _ => postgres
  | OfMysql _ => mysql
  | OfSqlite _ => sqlite
  end.

Definition has_handle (a : Adapter) : bool :=
  match a with
  | OfPostgres p => bool_decide (is_Some (PostgresAdapter.pool p))
  | OfMysql m => bool_decide (is_Some (MysqlAdapter.pool m))
  | OfSqlite s => bool_decide (is_Some (SqliteAdapter.db s))
  end.

(** The error of [ensureConnected], per class. *)
Definition notConnected (k : DatabaseType) : Exn :=
  match k with
  | postgres => Error "PostgreSQL adapter is not connected. Call connect() first."
  | mysql => Error "MySQL adapter is not connected. Call connect() first."
  | sqlite => Error "SQLite adapter is not connected. Call connect() first."
  end.

(* ===================================================================== *)
(** ** server.ts                                                          *)
(* ===================================================================== *)

(** An incoming request after [parseUrl] and [readBody]: the method, the
    path, the decoded query parameters in order, the value of the
    [x-veilmail-signature] header and the body text. *)
Record Request := mkRequest {
  req_method : option string;
  req_path : string;
  req_query : list (string * string);
  req_signature : option string;
  req_body : string
}.

(** The object handed to [sendJson]. *)
Inductive Body :=
| HealthStatus (status : string) (timestamp : Z) (database : DatabaseType)
| EventList (events : list WebhookEvent) (count : nat)
| Received (received : bool) (id : string)
| ErrorMessage (error : string).

Record Response := sendJson {
  statusCode : Z;
  body : Body
}.

(** What the handler reads from the process while it serves one request:
    the [n]-th [randomUUID()] and the [n]-th [new Date()] of the request. *)
Record Runtime := mkRuntime {
  randomUUID : nat -> string;
  now : nat -> Z
}.

Definition upper_char (c : ascii) : ascii :=
  let n := N_of_ascii c in
  if ((97 <=? n) && (n <=? 122))%N then ascii_of_N (n - 32) else c.

Fixpoint toUpperCase (s : string) : string :=
  match s with
  | EmptyString => EmptyString
  | String c r => String (upper_char c) (toUpperCase r)
  end.

(** [URLSearchParams.has] and [.get]: the first parameter of that name. *)
Definition query_get (q : list (string * string)) (name : string) : option string :=
  snd <$> List.find (fun p => bool_decide (fst p = name)) q.
Definition query_has (q : list (string * string)) (name : string) : bool :=
  bool_decide (is_Some (query_get q name)).

(** [parseInt(s, 10)]: leading white space (the ASCII one here), an
    optional sign, then the longest run of decimal digits; [None] is NaN.
    The value is exact, where JavaScript rounds above 2^53. *)
Definition is_space (c : ascii) : bool :=
  let n := N_of_ascii c in (((9 <=? n) && (n <=? 13)) || (n =? 32))%N.

Fixpoint skip_spaces (s : string) : string :=
  match s with
  | String c r => if is_space c then skip_spaces r else s
  | EmptyString => s
  end.

Definition digit_value (c : ascii) : option Z :=
  let n := Z.of_N (N_of_ascii c) in
  if (48 <=? n) && (n <=? 57) then Some (n - 48) else None.

Fixpoint leading_digits (s : string) (acc : option Z) : option Z :=
  match s with
  | String c r =>
      match digit_value c with
      | Some d => leading_digits r (Some (10 * default 0 acc + d))
      | None => acc
      end
  | EmptyString => acc
  end.

Definition parseInt (s : string) : option Z :=
  match skip_spaces s with
  | String "-" r => Z.opp <$> leading_digits r None
  | String "+" r => leading_digits r None
  | t => leading_digits t None
  end.

(** [x || d] on a number: NaN and 0 are falsy. *)
Definition num_or (x : option Z) (d : Z) : Z :=
  match x with
  | Some n => if n =? 0 then d else n
  | None => d
  end.

(** The [limit] and [offset] the list route passes to [adapter.query]. *)
Definition parse_limit (q : list (string * string)) : Z :=
  match query_get q "limit" with
  | Some v => Z.min (Z.max (num_or (parseInt v) 50) 1) 1000
  | None => 50
  end.

Definition parse_offset (q : list (string * string)) : Z :=
  match query_get q "offset" with
  | Some v => Z.max (num_or (parseInt v) 0) 0
  | None => 0
  end.

(** [payload.name] on the value [JSON.parse] returned: reading a property
    of [null] throws; on an object the last member of that name counts; any
    other value has none of the three properties read here. *)
Definition get_property (payload : JSON) (name : string) : Result (option JSON) :=
  match payload with
  | JNull => Throw (TypeError "Cannot read properties of null")
  | JObj members =>
      Ok (snd <$> List.find (fun p => bool_decide (fst p = name)) (rev members))
  | _ => Ok None
  end.

(** [v ?? d]: only [undefined] and [null] select [d]. *)
Definition nullish (v : option JSON) : bool :=
  match v with
  | None | Some JNull => true
  | _ => false
  end.

(** Truthiness of a property value. *)
Definition truthy (v : option JSON) : bool :=
  match v with
  | None | Some JNull => false
  | Some (JBool b) => b
  | Some (JNum n) => negb (n =? 0)
  | Some (JStr s) => negb (str_falsy s)
  | Some (JArr _) | Some (JObj _) => true
  end.

(** [req.method?.toUpperCase() ?? 'GET']. *)
Definition request_method (req : Request) : string :=
  default "GET" (toUpperCase <$> req_method req).

Section Server.

(** Built-ins of the JavaScript run time the handler calls:
    [JSON.parse] ([None]: it throws), [Date.parse] ([None]: NaN), the
    string conversion of an array or object, and the text a value that is
    not a string stands for where the source casts it with [as string]. *)
Variable JSON_parse : string -> option JSON.
Variable Date_parse : string -> option Z.
Variable ToString : JSON -> string.

Definition as_string (v : JSON) : string :=
  match v with
  | JStr s => s
  | _ => ToString v
  end.

Definition timeClip (n : Z) : Date :=
  if Z.abs n <=? 8640000000000000 then ValidDate n else InvalidDate.

(** [new Date(v)] for a JSON value. *)
Definition new_Date (v : JSON) : Date :=
  match v with
  | JStr s => match Date_parse s with Some ms => timeClip ms | None => InvalidDate end
  | JNum n => timeClip n
  | JBool b => ValidDate (if b then 1 else 0)
  | JNull => ValidDate 0
  | JArr _ | JObj _ =>
      match Date_parse (ToString v) with Some ms => timeClip ms | None => InvalidDate end
  end.

(** The event literal of the ingest route. *)
Definition build_event (rt : Runtime) (payload : JSON) : Result WebhookEvent :=
  ty <-! get_property payload "type" ;;
  pid <-! get_property payload "id" ;;
  created <-! get_property payload "created_at" ;;
  Ok (mkEvent
        (randomUUID rt 0)
        (if nullish ty then "unknown" else as_string (default JNull ty))
        (if nullish pid then randomUUID rt 1 else as_string (default JNull pid))
        payload
        (if truthy created then new_Date (default JNull created) else ValidDate (now rt 0))
        (ValidDate (now rt (if truthy created then 0 else 1)%nat))).

Context {A : Type} `{DatabaseAdapter A}.

(** What the request handler does inside its [try] block. *)
Definition route (rt : Runtime) (config : IngesterConfig) (adapter : A)
    (w : World) (req : Request) : Result (World * Response) :=
  let method := request_method req in
  let path := req_path req in
  if bool_decide (method = "GET") && bool_decide (path = "/health") then
    Ok (w, sendJson 200 (HealthStatus "ok" (now rt 0) (db_type (database config))))
  else if bool_decide (method = "GET") && bool_decide (path = "/events") then
    let type := query_get (req_query req) "type" in
    let limit := parse_limit (req_query req) in
    let offset := parse_offset (req_query req) in
    events <-! query adapter (Some (mkQuery type (Some limit) (Some offset))) w ;;
    Ok (w, sendJson 200 (EventList events (List.length events)))
  else if bool_decide (method = "POST") && bool_decide (path = "/webhook") then
    let body := req_body req in
    match req_signature req with
    | None => Ok (w, sendJson 401 (ErrorMessage "Missing x-veilmail-signature header"))
    | Some signature =>
        if str_falsy signature
        then Ok (w, sendJson 401 (ErrorMessage "Missing x-veilmail-signature header"))
        else if negb (verifyWebhookSignature body signature (secret config))
        then Ok (w, sendJson 401 (ErrorMessage "Invalid webhook signature"))
        else
          match JSON_parse body with
          | None => Ok (w, sendJson 400 (ErrorMessage "Invalid JSON payload"))
          | Some payload =>
              event <-! build_event rt payload ;;
              w' <-! insert adapter event w ;;
              Ok (w', sendJson 200 (Received true (ev_id event)))
          end
    end
  else Ok (w, sendJson 404 (ErrorMessage "Not found")).

(** The request handler: anything thrown becomes a 500. *)
Definition handler (rt : Runtime) (config : IngesterConfig) (adapter : A)
    (w : World) (req : Request) : World * Response :=
  match route rt config adapter w req with
  | Ok r => r
  | Throw _ => (w, sendJson 500 (ErrorMessage "Internal server error"))
  end.

End Server.

(* ===================================================================== *)
(** ** cli.ts: what [main] does with the adapter before serving           *)
(* ===================================================================== *)

(** [await adapter.connect()] then [await adapter.createTable()]; a throw
    of either stops the process. *)
Definition startup {A : Type} `{DatabaseAdapter A} (adapter : A) (w : World)
  : Result (A * World) :=
  let '(adapter', r) := connect adapter w in
  _ <-! r ;;
  w' <-! createTable adapter' w ;;
  Ok (adapter', w').

(* ===================================================================== *)
(** ** cli.ts: arguments and configuration                                *)
(* ===================================================================== *)

(** How a step of [main] ends: it returns, it calls [process.exit] after
    logging a line, or it throws. *)
Inductive Outcome (A : Type) :=
| Returns (a : A)
| Exits (code : Z) (logged : string)
| Raises (e : Exn).
Arguments Returns {A} a.
Arguments Exits {A} code logged.
Arguments Raises {A} e.

(** The configuration as it exists at run time: [database.type] is a string
    that the cast [as DatabaseType] does not check, and [port] is the
    number [parseInt] gave ([None]: NaN). *)
Record RawDatabaseConfig := mkRawDatabase {
  raw_type : string;
  raw_url : string
}.

Record RawConfig := mkRawConfig {
  raw_port : option Z;
  raw_secret : string;
  raw_database : RawDatabaseConfig;
  raw_tableName : string
}.

(** [Partial<IngesterConfig>], what a configuration file is read as: a field
    is [None] when the file leaves it out or gives [null], which is what
    [??] tests.  The file is taken to hold an object whose fields have the
    declared types, the cast in [loadConfigFromFile] checks nothing; a
    database given without [url] reads as one with the empty URL, both are
    falsy. *)
Record PartialConfig := mkPartial {
  file_port : option Z;
  file_secret : option string;
  file_database : option RawDatabaseConfig;
  file_tableName : option string
}.

Definition is_config_flag (arg : string) : bool :=
  bool_decide (arg = "--config") || bool_decide (arg = "-c").

(** The loop of [parseArgs]: a flag takes the next argument as its value,
    [undefined] ([None]) when there is none, and the loop steps over it. *)
Fixpoint parseArgs_loop (configPath : option string) (args : list string) : option string :=
  match args with
  | [] => configPath
  | arg :: rest =>
      if is_config_flag arg
      then match rest with
           | [] => None
           | value :: rest' => parseArgs_loop (Some value) rest'
           end
      else parseArgs_loop configPath rest
  end.

Definition parseArgs (args : list string) : option string := parseArgs_loop None args.

Definition supported_types : list string := ["postgres"; "mysql"; "sqlite"].

(** [loadConfigFromEnv] over [process.env]. *)
Definition loadConfigFromEnv (env : gmap string string) : Outcome RawConfig :=
  let databaseUrl := env !! "DATABASE_URL" in
  let databaseType := default "postgres" (env !! "DATABASE_TYPE") in
  let webhookSecret := env !! "WEBHOOK_SECRET" in
  let port := parseInt (default "4000" (env !! "PORT")) in
  let tableName := default "veilmail_webhook_events" (env !! "TABLE_NAME") in
  if str_falsy (default "" databaseUrl)
  then Exits 1 "[webhook-ingester] ERROR: DATABASE_URL environment variable is required."
  else if str_falsy (default "" webhookSecret)
  then Exits 1 "[webhook-ingester] ERROR: WEBHOOK_SECRET environment variable is required."
  else if negb (bool_decide (databaseType ∈ supported_types))
  then Exits 1 ("[webhook-ingester] ERROR: DATABASE_TYPE must be one of: postgres, mysql, sqlite. Got: "
                +:+ dq +:+ databaseType +:+ dq)
  else Returns (mkRawConfig port (default "" webhookSecret)
                            (mkRawDatabase databaseType (default "" databaseUrl)) tableName).

Section Cli.

(** [loadConfigFromFile]: the file read and parsed, or the error rethrown
    after the line it logs. *)
Variable loadConfigFromFile : string -> Result PartialConfig.

(** [buildConfig] over [process.argv.slice(2)] and [process.env]. *)
Definition buildConfig (args : list string) (env : gmap string string) : Outcome RawConfig :=
  match parseArgs args with
  | Some configPath =>
      if str_falsy configPath then loadConfigFromEnv env
      else
        match loadConfigFromFile configPath with
        | Throw e => Raises e
        | Ok fileConfig =>
            let config :=
              mkRawConfig
                (match file_port fileConfig with
                 | Some p => Some p
                 | None => parseInt (default "4000" (env !! "PORT"))
                 end)
                (default (default "" (env !! "WEBHOOK_SECRET")) (file_secret fileConfig))
                (default (mkRawDatabase (default "postgres" (env !! "DATABASE_TYPE"))
                                        (default "" (env !! "DATABASE_URL")))
                         (file_database fileConfig))
                (default (default "veilmail_webhook_events" (env !! "TABLE_NAME"))
                         (file_tableName fileConfig)) in
            if str_falsy (raw_url (raw_database config))
            then Exits 1 "[webhook-ingester] ERROR: Database URL is required (set in config file or DATABASE_URL env var)."
            else if str_falsy (raw_secret config)
            then Exits 1 "[webhook-ingester] ERROR: Webhook secret is required (set in config file or WEBHOOK_SECRET env var)."
            else Returns config
        end
  | None => loadConfigFromEnv env
  end.

(** [createAdapter] on the run-time value of [config.type]: the [default:]
    branch throws for a string that names no backend. *)
Definition createAdapter_at_runtime (config : RawDatabaseConfig) (tableName : option string)
  : Result Adapter :=
  let tableName := default "veilmail_webhook_events" tableName in
  if bool_decide (raw_type config = "postgres")
  then Ok (OfPostgres (PostgresAdapter.constructor (raw_url config) tableName))
  else if bool_decide (raw_type config = "mysql")
  then Ok (OfMysql (MysqlAdapter.constructor (raw_url config) tableName))
  else if bool_decide (raw_type config = "sqlite")
  then Ok (OfSqlite (SqliteAdapter.constructor (raw_url config) tableName))
  else Throw (Error ("Unsupported database type: " +:+ dq +:+ raw_type config +:+ dq +:+
                     ". Supported types: postgres, mysql, sqlite")).

(** [main] up to [server.start()]: the configuration, the adapter,
    [connect] and [createTable]; whatever is thrown on the way is caught by
    [main().catch] and ends the process with code 1. *)
Definition main (args : list string) (env : gmap string string) (w : World)
  : Outcome (RawConfig * Adapter * World) :=
  match buildConfig args env with
  | Exits c l => Exits c l
  | Raises _ => Exits 1 "[webhook-ingester] Fatal error:"
  | Returns config =>
      match createAdapter_at_runtime (raw_database config) (Some (raw_tableName config)) with
      | Throw _ => Exits 1 "[webhook-ingester] Fatal error:"
      | Ok adapter =>
          match startup adapter w with
          | Throw _ => Exits 1 "[webhook-ingester] Fatal error:"
          | Ok (adapter', w') => Returns (config, adapter', w')
          end
      end
  end.

End Cli.

(** The string a member of [DatabaseType] is. *)
Definition type_name (t : DatabaseType) : string :=
  match t with
  | postgres => "postgres"
  | mysql => "mysql"
  | sqlite => "sqlite"
  end.

(* ===================================================================== *)
(** ** server.ts: [stop]                                                  *)
(* ===================================================================== *)


(* ===================================================================== *)
(** ** Notions the statements below are phrased with                      *)
(* ===================================================================== *)










(** The rows of a table (none when it does not exist), and how many of
    them carry a given [event_id]. *)
Definition rows_of (w : World) (name : string) : list Row :=
  default [] (tables w !! name).


(** The UNIQUE constraint on [event_id], as a property of a database. *)
Definition unique_event_ids (db : gmap string (list Row)) : Prop :=
  forall name t, db !! name = Some t -> NoDup (map row_event_id t).

(** The state an [insert] leaves behind, whether it returned or threw. *)
Definition after_insert {A : Type} `{DatabaseAdapter A} (a : A) (e : WebhookEvent)
    (w : World) : World :=
  match insert a e w with
  | Ok w' => w'
  | Throw _ => w
  end.


Definition valid_date (d : Date) : bool :=
  match d with
  | ValidDate _ => true
  | InvalidDate => false
  end.

Definition valid_event (e : WebhookEvent) : bool :=
  valid_date (created_at e) && valid_date (received_at e).

Definition time_value (d : Date) : Z :=
  match d with
  | ValidDate ms => ms
  | InvalidDate => 0
  end.

(** The row that [insert] binds for an event whose dates are valid. *)
Definition row_of_event (e : WebhookEvent) : Row :=
  mkRow (ev_id e) (event_type e) (event_id e) (data e)
        (time_value (created_at e)) (time_value (received_at e)).

(** The conflict clause of each class's INSERT statement. *)
Definition clause_of (a : Adapter) : ConflictClause :=
  match a with
  | OfPostgres _ => OnConflictEventIdDoNothing
  | OfMysql _ | OfSqlite _ => IgnoreAny
  end.

(** An adapter that holds a pool or handle through which statements reach
    the database: a pool needs the server, an open SQLite handle does not. *)
Definition connected (a : Adapter) (w : World) : bool :=
  has_handle a && match a with
                  | OfSqlite _ => true
                  | _ => reachable w
                  end.


(** The type filter as the adapters apply it: the empty string filters
    nothing. *)
Definition code_type_filter (ty : option string) (r : Row) : bool :=
  match ty with
  | Some t => if str_falsy t then true else bool_decide (row_event_type r = t)
  | None => true
  end.

(** Stand-ins for the JavaScript built-ins, enough to run the examples:
    a [JSON.parse] that knows two documents, a [Date.parse] that knows two
    ISO instants, and the string conversion of an object. *)
Definition body_bad_date : string :=
  "{" +:+ dq +:+ "created_at" +:+ dq +:+ ":" +:+ dq +:+ "not-a-date" +:+ dq +:+ "}".
Definition body_plain : string :=
  "{" +:+ dq +:+ "type" +:+ dq +:+ ":" +:+ dq +:+ "email.delivered" +:+ dq +:+ "," +:+
  dq +:+ "id" +:+ dq +:+ ":" +:+ dq +:+ "evt_1" +:+ dq +:+ "}".

Definition example_JSON_parse (s : string) : option JSON :=
  if bool_decide (s = body_bad_date)
  then Some (JObj [("created_at", JStr "not-a-date")])
  else if bool_decide (s = body_plain)
  then Some (JObj [("type", JStr "email.delivered"); ("id", JStr "evt_1")])
  else None.

Definition example_Date_parse (s : string) : option Z :=
  if bool_decide (s = "1970-01-01T00:00:00.000Z") then Some 0
  else if bool_decide (s = "2025-01-01T00:00:00.000Z") then Some 1735689600000
  else None.

Definition example_ToString (v : JSON) : string := "[object Object]".

Definition example_runtime : Runtime :=
  mkRuntime (fun n => match n with
                      | O => "3f2c1c1e-0000-4000-8000-000000000001"
                      | _ => "3f2c1c1e-0000-4000-8000-000000000002"
                      end)
            (fun n => 1750000000000 + Z.of_nat n).

Definition example_config (t : DatabaseType) : IngesterConfig :=
  mkConfig 4000 "k" (mkDatabaseConfig t "db") "veilmail_webhook_events".

Definition example_event (i : string) (ty : string) (t : Z) : WebhookEvent :=
  mkEvent ("id_" +:+ i) ty ("evt_" +:+ i) (JObj []) (ValidDate t) (ValidDate 1750000000000).

(** A world whose server is up, with the given tables. *)
Definition live_world (db : gmap string (list Row)) : World := mkWorld true true true db.

(** Connected adapters and small databases for the examples. *)
Definition example_pg : Adapter :=
  OfPostgres (PostgresAdapter.new (Some "postgres://db") "postgres://db" "veilmail_webhook_events").
Definition example_world_1 : World :=
  live_world {[ "veilmail_webhook_events" := [row_of_event (example_event "1" "email.delivered" 1000)] ]}.

Definition example_sqlite : Adapter :=
  OfSqlite (SqliteAdapter.new (Some "events.db") "events.db" "veilmail_webhook_events").

Definition example_world_2 : World :=
  live_world {[ "veilmail_webhook_events" :=
                  [row_of_event (example_event "1" "email.delivered" 2000);
                   row_of_event (example_event "2" "" 1000)] ]}.

Definition example_empty_world : World :=
  live_world {[ "veilmail_webhook_events" := [] ]}.

(** Requests for the examples, and the handler run on the stand-ins. *)
Definition request_bad_date : Request :=
  mkRequest (Some "POST") "/webhook" []
            (Some (hexEncode (hmacSha256 "k" body_bad_date))) body_bad_date.

Definition request_unsigned : Request :=
  mkRequest (Some "POST") "/webhook" [] None body_plain.

Definition request_missigned : Request :=
  mkRequest (Some "POST") "/webhook" [] (Some "00") body_plain.


Definition example_handler (t : DatabaseType) (a : Adapter) (w : World) (req : Request)
  : World * Response :=
  handler example_JSON_parse example_Date_parse example_ToString example_runtime
          (example_config t) a w req.

(** Case analysis on the class of an adapter, unfolding its methods. *)
Ltac adapter_cases a :=
  destruct a as [[pool connectionString tableName]
                |[pool connectionString tableName]
                |[handle filePath tableName]];
  cbn [insert query createTable connect close Adapter_impl
       PostgresAdapter_impl MysqlAdapter_impl SqliteAdapter_impl
       adapter_table adapter_kind has_handle connected clause_of notConnected] in *;
  unfold PostgresAdapter.insert, MysqlAdapter.insert, SqliteAdapter.insert,
         PostgresAdapter.query, MysqlAdapter.query, SqliteAdapter.query,
         PostgresAdapter.createTable, MysqlAdapter.createTable, SqliteAdapter.createTable,
         PostgresAdapter.connect, MysqlAdapter.connect, SqliteAdapter.connect,
         PostgresAdapter.close, MysqlAdapter.close, SqliteAdapter.close,
         PostgresAdapter.ensureConnected, MysqlAdapter.ensureConnected,
         SqliteAdapter.ensureConnected in *;
  cbn [PostgresAdapter.pool PostgresAdapter.tableName PostgresAdapter.connectionString
       MysqlAdapter.pool MysqlAdapter.tableName MysqlAdapter.connectionString
       SqliteAdapter.db SqliteAdapter.tableName SqliteAdapter.filePath] in *.


Definition null_JSON_parse (s : string) : option JSON :=
  if bool_decide (s = "null") then Some JNull else example_JSON_parse s.

Definition signed_request (body : string) : Request :=
  mkRequest (Some "POST") "/webhook" [] (Some (hexEncode (hmacSha256 "k" body))) body.



(** A stand-in for [process.env], for the configuration files of the
    examples and for [loadConfigFromFile] on them. *)
Definition example_env : gmap string string :=
  <["DATABASE_URL" := "events.db"]>
    (<["DATABASE_TYPE" := "sqlite"]> (<["WEBHOOK_SECRET" := "k"]> ∅)).

Definition example_env_2 : gmap string string :=
  <["DATABASE_URL" := "events.db"]>
    (<["DATABASE_TYPE" := "oracle"]> (<["WEBHOOK_SECRET" := "k"]> ∅)).

Definition example_env_config : RawConfig :=
  mkRawConfig (Some 4000) "k" (mkRawDatabase "sqlite" "events.db") "veilmail_webhook_events".

Definition example_file_config : PartialConfig :=
  mkPartial (Some 8080) (Some "s") (Some (mkRawDatabase "mysql" "mysql://db")) (Some "events").

Definition example_loadConfigFromFile (filePath : string) : Result PartialConfig :=
  if bool_decide (filePath = "full.json") then Ok example_file_config
  else if bool_decide (filePath = "empty.json") then Ok (mkPartial None None None None)
  else if bool_decide (filePath = "oracle.json")
  then Ok (mkPartial None (Some "s") (Some (mkRawDatabase "oracle" "oracle://db")) None)
  else Throw (Error "ENOENT").

(* ===================================================================== *)
(** * Properties                                                          *)
(* ===================================================================== *)

(** ** The signature verifier *)

Lemma byte_to_Z_range (b : byte) : 0 <= byte_to_Z b < 256.
Proof.
  unfold byte_to_Z. pose proof (Byte.to_N_bounded b) as Hb. lia.
Qed.

Lemma byte_of_to_Z (b : byte) : byte_of_Z (byte_to_Z b) = b.
Proof.
  unfold byte_of_Z. pose proof (byte_to_Z_range b) as Hr.
  rewrite Z.mod_small by lia. unfold byte_to_Z.
  rewrite N2Z.id, Byte.of_to_N. reflexivity.
Qed.


Lemma nibble_cases (n : Z) : 0 <= n < 16 -> In n (map Z.of_nat (seq 0 16)).
Proof.
  intros Hn. apply in_map_iff. exists (Z.to_nat n). split; [lia|].
  apply in_seq. lia.
Qed.

Lemma unhex_hexDigit (n : Z) : 0 <= n < 16 -> unhex (hexDigit n) = Some n.
Proof.
  intros Hn. apply nibble_cases in Hn. cbn in Hn.
  repeat (destruct Hn as [<-|Hn]; [reflexivity|]). contradiction.
Qed.

Lemma Buffer_from_hex_encode (d : Buffer) : Buffer_from_hex (hexEncode d) = d.
Proof.
  induction d as [|b d IH]; [reflexivity|]. cbn [hexEncode Buffer_from_hex].
  pose proof (byte_to_Z_range b) as Hr.
  rewrite !unhex_hexDigit.
  - rewrite IH. f_equal.
    rewrite <- (byte_of_to_Z b) at 3. f_equal.
    symmetry. apply Z.div_mod. lia.
  - apply Z.mod_pos_bound. lia.
  - split; [apply Z.div_pos; lia | apply Z.div_lt_upper_bound; lia].
Qed.

Lemma byte_to_Z_inj (a b : byte) : byte_to_Z a = byte_to_Z b -> a = b.
Proof.
  intros E. rewrite <- (byte_of_to_Z a), <- (byte_of_to_Z b). now rewrite E.
Qed.

(** The accumulator of the comparison never goes back to zero. *)
Lemma xor_fold_zero (l : list (byte * byte)) (acc : Z) :
  0 <= acc ->
  fold_left (fun acc p => Z.lor acc (Z.lxor (byte_to_Z (fst p)) (byte_to_Z (snd p)))) l acc = 0 ->
  acc = 0 /\ Forall (fun p => fst p = snd p) l.
Proof.
  revert acc. induction l as [|[x y] l IH]; intros acc Hacc Hf; cbn in *.
  - split; [assumption | constructor].
  - apply IH in Hf.
    + destruct Hf as [Hz Hl]. apply Z.lor_eq_0_iff in Hz as [Ha Hx].
      split; [assumption|]. constructor; [|assumption].
      cbn. apply byte_to_Z_inj. now apply Z.lxor_eq.
    + apply Z.lor_nonneg. split; [assumption|].
      apply Z.lxor_nonneg. pose proof (byte_to_Z_range x). pose proof (byte_to_Z_range y). lia.
Qed.

Lemma xor_fold_same (a : Buffer) :
  fold_left (fun acc p => Z.lor acc (Z.lxor (byte_to_Z (fst p)) (byte_to_Z (snd p))))
            (combine a a) 0 = 0.
Proof.
  induction a as [|x a IH]; cbn; [reflexivity|].
  now rewrite Z.lxor_nilpotent.
Qed.

Lemma combine_eq {X} (a b : list X) :
  List.length a = List.length b -> Forall (fun p => fst p = snd p) (combine a b) -> a = b.
Proof.
  revert b. induction a as [|x a IH]; intros [|y b] Hl Hf; cbn in *; try discriminate.
  - reflexivity.
  - inversion Hf as [|? ? Hxy Hrest]; subst. cbn in Hxy. subst.
    f_equal. apply IH; [lia | assumption].
Qed.

Lemma timingSafeEqual_true (a b : Buffer) :
  timingSafeEqual a b = Some true <-> a = b.
Proof.
  unfold timingSafeEqual. split.
  - destruct (Nat.eqb_spec (List.length a) (List.length b)) as [Hl|]; [|discriminate].
    intros [= E]. apply Z.eqb_eq in E. apply xor_fold_zero in E; [|lia].
    destruct E as [_ E]. now apply combine_eq.
  - intros ->. rewrite Nat.eqb_refl, xor_fold_same. reflexivity.
Qed.

Lemma str_falsy_true (s : string) : str_falsy s = true <-> s = EmptyString.
Proof. destruct s; cbn; split; congruence. Qed.

Lemma str_falsy_false (s : string) : str_falsy s = false <-> s <> EmptyString.
Proof. destruct s; cbn; split; congruence. Qed.

(** What [verifyWebhookSignature] accepts: the three strings are not empty
    and the hex decoding of the signature is the digest. *)
Lemma verify_true_iff (payload signature secret : string) :
  verifyWebhookSignature payload signature secret = true <->
  payload <> EmptyString /\ signature <> EmptyString /\ secret <> EmptyString /\
  Buffer_from_hex signature = hmacSha256 secret payload.
Proof.
  unfold verifyWebhookSignature. rewrite Buffer_from_hex_encode.
  destruct (str_falsy payload) eqn:Hp; cbn [orb];
    [apply str_falsy_true in Hp; split; [discriminate | intros (? & _); congruence]|].
  destruct (str_falsy signature) eqn:Hs; cbn [orb];
    [apply str_falsy_true in Hs; split; [discriminate | intros (_ & ? & _); congruence]|].
  destruct (str_falsy secret) eqn:Hk;
    [apply str_falsy_true in Hk; split; [discriminate | intros (_ & _ & ? & _); congruence]|].
  apply str_falsy_false in Hp, Hs, Hk.
  generalize (Buffer_from_hex signature) (hmacSha256 secret payload). intros sb eb.
  destruct (Nat.eqb_spec (List.length sb) (List.length eb)) as [Hl|Hl]; cbn [negb].
  - destruct (timingSafeEqual sb eb) as [r|] eqn:E.
    + split.
      * intros ->. apply timingSafeEqual_true in E. repeat split; congruence.
      * intros (_ & _ & _ & Heq). apply timingSafeEqual_true in Heq. congruence.
    + unfold timingSafeEqual in E. rewrite Hl, Nat.eqb_refl in E. discriminate.
  - split; [discriminate|]. intros (_ & _ & _ & Heq). rewrite Heq in Hl. congruence.
Qed.

Lemma be_bytes_length (n : nat) (x : Z) : List.length (Sha256.be_bytes n x) = n.
Proof. unfold Sha256.be_bytes. now rewrite length_map, length_rev, length_seq. Qed.

Lemma sha256_length (msg : list Z) : List.length (Sha256.sha256 msg) = 32%nat.
Proof.
  unfold Sha256.sha256, Sha256.digest_bytes.
  rewrite !length_app, !be_bytes_length. reflexivity.
Qed.

Lemma hmacSha256_length (secret payload : string) :
  List.length (hmacSha256 secret payload) = 32%nat.
Proof. unfold hmacSha256, Sha256.hmac. now rewrite length_map, sha256_length. Qed.











Lemma hexEncode_nonempty (d : Buffer) : d <> [] -> hexEncode d <> EmptyString.
Proof. destruct d; cbn; congruence. Qed.

Lemma hmacSha256_nonempty (secret payload : string) : hmacSha256 secret payload <> [].
Proof.
  intros E. pose proof (hmacSha256_length secret payload) as Hl. rewrite E in Hl. discriminate.
Qed.

(** Known answers: SHA-256 of abc (FIPS 180-4) and HMAC-SHA-256 test case
    2 of RFC 4231. *)
Example sha256_abc :
  hexEncode (map byte_of_Z (Sha256.sha256 (utf8 "abc"))) =
  "ba7816bf8f01cfea414140de5dae2223b00361a396177a9cb410ff61f20015ad".
Proof. vm_compute. reflexivity. Qed.

Example hmac_rfc4231_case_2 :
  hexEncode (hmacSha256 "Jefe" "what do ya want for nothing?") =
  "5bdcc146bf60754e6a042426089575c75a003f089d2739839dec58b964ec3843".
Proof. vm_compute. reflexivity. Qed.


Lemma verify_correct (payload secret : string) :
  payload <> EmptyString -> secret <> EmptyString ->
  verifyWebhookSignature payload (hexEncode (hmacSha256 secret payload)) secret = true.
Proof.
  intros Hp Hs. apply verify_true_iff. repeat split; try assumption.
  - apply hexEncode_nonempty, hmacSha256_nonempty.
  - apply Buffer_from_hex_encode.
Qed.

Lemma verify_wrong_length (payload signature secret : string) :
  List.length (Buffer_from_hex signature) <> 32%nat ->
  verifyWebhookSignature payload signature secret = false.
Proof.
  intros Hl. apply not_true_iff_false. intros Hv. apply verify_true_iff in Hv.
  destruct Hv as (_ & _ & _ & Hd). rewrite Hd, hmacSha256_length in Hl. congruence.
Qed.








(** ** The backing store *)

Lemma set_tables_same (w : World) : set_tables w (tables w) = w.
Proof. destruct w; reflexivity. Qed.





(** Every INSERT statement leaves the database as it was or appends the
    row to its table; it appends only a row whose [event_id] is new. *)
Lemma sql_insert_Ok (c : ConflictClause) (name : string) (r : Row)
    (db db' : gmap string (list Row)) :
  sql_insert c name r db = Ok db' ->
  db' = db \/
  exists t, db !! name = Some t /\ has_event_id (row_event_id r) t = false /\
            has_id (row_id r) t = false /\ db' = <[name := t ++ [r]]> db.
Proof.
  unfold sql_insert. destruct (db !! name) as [t|]; [|discriminate].
  destruct (has_event_id _ t) eqn:He; [intros [= <-]; now left|].
  destruct (has_id _ t) eqn:Hi.
  - destruct c; [discriminate | intros [= <-]; now left].
  - intros [= <-]. right. exists t. repeat split; assumption.
Qed.




(** ** The three adapters *)

Lemma insert_params_valid (e : WebhookEvent) :
  valid_event e = true -> insert_params e = Ok (row_of_event e).
Proof.
  destruct e as [i ty eid d [c|] [r|]]; cbn; intros H; try discriminate. reflexivity.
Qed.


(** What [insert] does once it got past [ensureConnected] and to the
    server: bind the parameters, run the class's INSERT statement. *)
Lemma insert_connected (a : Adapter) (e : WebhookEvent) (w : World) (t : list Row) :
  connected a w = true -> tables w !! adapter_table a = Some t ->
  insert a e w =
  (row <-! insert_params e ;;
   db <-! sql_insert (clause_of a) (adapter_table a) row (tables w) ;;
   Ok (set_tables w db)).
Proof.
  intros Hc Ht. adapter_cases a.
  - destruct pool; cbn in Hc; [|discriminate]. cbn. rewrite Hc. reflexivity.
  - destruct pool; cbn in Hc; [|discriminate]. cbn. rewrite Hc. reflexivity.
  - destruct handle; cbn in Hc; [|discriminate]. cbn. rewrite Ht. reflexivity.
Qed.



(** The constraint holds of the empty database and is kept by
    [createTable], so it holds of every database the adapters build. *)
Lemma unique_event_ids_empty : unique_event_ids ∅.
Proof. intros name t Hl. rewrite lookup_empty in Hl. discriminate. Qed.

Lemma sql_create_table_unique (name : string) (db : gmap string (list Row)) :
  unique_event_ids db -> unique_event_ids (sql_create_table name db).
Proof.
  intros Hu. unfold sql_create_table. destruct (db !! name) eqn:E; [assumption|].
  intros n t Hl. destruct (decide (name = n)) as [<-|Hne].
  - rewrite lookup_insert_eq in Hl. injection Hl as <-. apply NoDup_nil_2.
  - rewrite lookup_insert_ne in Hl by assumption. now apply (Hu n).
Qed.

Lemma createTable_unique (a : Adapter) (w w' : World) :
  unique_event_ids (tables w) -> createTable a w = Ok w' -> unique_event_ids (tables w').
Proof.
  intros Hu H. adapter_cases a.
  - destruct pool; [|discriminate]. cbn in H. destruct (reachable w); [|discriminate].
    injection H as <-. now apply sql_create_table_unique.
  - destruct pool; [|discriminate]. cbn in H. destruct (reachable w); [|discriminate].
    injection H as <-. now apply sql_create_table_unique.
  - destruct handle; [|discriminate]. cbn in H.
    injection H as <-. now apply sql_create_table_unique.
Qed.

Lemma rows_of_lookup (w : World) (name : string) (t : list Row) :
  tables w !! name = Some t -> rows_of w name = t.
Proof. unfold rows_of. now intros ->. Qed.





(** ** Lifecycle *)



Lemma kind_of_created (config : DatabaseConfig) (tableName : option string) :
  adapter_kind (createAdapter config tableName) = db_type config.
Proof. unfold createAdapter. destruct (db_type config); reflexivity. Qed.








(** ** The factory *)

(** C8 (as stated) fails: the table of an adapter made without a table name
    is not webhook_events. *)
Lemma C8_counterexample :
  adapter_table (createAdapter (mkDatabaseConfig sqlite "events.db") None)
    = "veilmail_webhook_events" /\
  adapter_table (createAdapter (mkDatabaseConfig sqlite "events.db") None)
    <> "webhook_events".
Proof. split; [reflexivity | discriminate]. Qed.

(** C8 (amended): an adapter made by [createAdapter] without a table name
    operates on veilmail_webhook_events: that is its table, the one its
    [createTable] ensures at startup (no other table changes), and the one
    a caller-supplied name replaces. *)
Theorem C8_default_table_name (config : DatabaseConfig) (db : gmap string (list Row))
    (name : string) :
  adapter_table (createAdapter config None) = "veilmail_webhook_events" /\
  adapter_table (createAdapter config (Some name)) = name /\
  exists a, startup (createAdapter config None) (live_world db)
            = Ok (a, live_world (sql_create_table "veilmail_webhook_events" db)) /\
            adapter_table a = "veilmail_webhook_events" /\
            is_Some (sql_create_table "veilmail_webhook_events" db !! "veilmail_webhook_events").
Proof.
  unfold createAdapter, startup. destruct (db_type config); cbn.
  all: repeat split; try reflexivity.
  all: eexists; repeat split; try reflexivity.
  all: unfold sql_create_table;
       destruct (db !! "veilmail_webhook_events") as [t|] eqn:E;
       [rewrite E; eauto | rewrite lookup_insert_eq; eauto].
Qed.

(** ** Queries *)

#[local] Instance created_desc_total : Total created_desc.
Proof. intros x y. unfold created_desc. lia. Qed.

#[local] Instance created_desc_trans : Transitive created_desc.
Proof. intros x y z. unfold created_desc. lia. Qed.

Lemma type_condition_filter (o : option QueryOptions) (r : Row) :
  type_matches (type_condition o) r = code_type_filter (o ≫= q_type) r.
Proof.
  unfold type_condition, code_type_filter. destruct (o ≫= q_type) as [s|]; [|reflexivity].
  destruct (str_falsy s); reflexivity.
Qed.

(** What [query] returns once it got past [ensureConnected] and to the
    server, for a LIMIT and an OFFSET that are not negative. *)
Lemma query_connected (a : Adapter) (w : World) (t : list Row) (o : option QueryOptions) :
  connected a w = true -> tables w !! adapter_table a = Some t ->
  0 <= limit_of o -> 0 <= offset_of o ->
  query a o w =
  Ok (map row_to_event
        (sql_select (type_condition o) (Some (Z.to_nat (limit_of o)))
                    (Z.to_nat (offset_of o)) t)).
Proof.
  intros Hc Ht Hl Ho.
  assert (Hneg : (limit_of o <? 0) || (offset_of o <? 0) = false).
  { apply orb_false_iff. split; apply Z.ltb_ge; assumption. }
  adapter_cases a.
  - destruct pool; cbn in Hc; [|discriminate]. cbn. rewrite Hc.
    unfold sql_select_strict. rewrite Ht, Hneg. reflexivity.
  - destruct pool; cbn in Hc; [|discriminate]. cbn. rewrite Hc.
    unfold sql_select_strict. rewrite Ht, Hneg. reflexivity.
  - destruct handle; cbn in Hc; [|discriminate]. cbn.
    unfold sql_select_sqlite. rewrite Ht.
    apply orb_false_iff in Hneg as [-> _]. reflexivity.
Qed.








(** ** The router *)

Section RouterFacts.

Variable JSON_parse : string -> option JSON.
Variable Date_parse : string -> option Z.
Variable ToString : JSON -> string.
Variable rt : Runtime.
Variable config : IngesterConfig.

#[local] Abbreviation dispatch := (route JSON_parse Date_parse ToString rt config).
#[local] Abbreviation serve := (handler JSON_parse Date_parse ToString rt config).

Lemma route_events (a : Adapter) (w : World) (req : Request) :
  request_method req = "GET" -> req_path req = "/events" ->
  dispatch a w req =
  (events <-! query a (Some (mkQuery (query_get (req_query req) "type")
                                     (Some (parse_limit (req_query req)))
                                     (Some (parse_offset (req_query req))))) w ;;
   Ok (w, sendJson 200 (EventList events (List.length events)))).
Proof. intros Hm Hp. unfold route. rewrite Hm, Hp. reflexivity. Qed.

Lemma route_webhook (a : Adapter) (w : World) (req : Request) :
  request_method req = "POST" -> req_path req = "/webhook" ->
  dispatch a w req =
  match req_signature req with
  | None => Ok (w, sendJson 401 (ErrorMessage "Missing x-veilmail-signature header"))
  | Some signature =>
      if str_falsy signature
      then Ok (w, sendJson 401 (ErrorMessage "Missing x-veilmail-signature header"))
      else if negb (verifyWebhookSignature (req_body req) signature (secret config))
      then Ok (w, sendJson 401 (ErrorMessage "Invalid webhook signature"))
      else
        match JSON_parse (req_body req) with
        | None => Ok (w, sendJson 400 (ErrorMessage "Invalid JSON payload"))
        | Some payload =>
            event <-! build_event Date_parse ToString rt payload ;;
            w' <-! insert a event w ;;
            Ok (w', sendJson 200 (Received true (ev_id event)))
        end
  end.
Proof. intros Hm Hp. unfold route. rewrite Hm, Hp. reflexivity. Qed.

(** *** Parsing of [limit] and [offset] *)

Example parseInt_examples :
  (parseInt "  42abc", parseInt "-7", parseInt "abc", parseInt "", parseInt "0", parseInt "1e3")
  = (Some 42, Some (-7), None, None, Some 0, Some 1).
Proof. reflexivity. Qed.

Example parse_limit_examples :
  (parse_limit [("limit", "5000")], parse_limit [("limit", "abc")],
   parse_limit [("limit", "-5")], parse_limit [("limit", "25")], parse_limit [])
  = (1000, 50, 1, 25, 50).
Proof. reflexivity. Qed.

Example parse_offset_examples :
  (parse_offset [("offset", "-3")], parse_offset [("offset", "7")],
   parse_offset [("offset", "x")], parse_offset [])
  = (0, 7, 0, 0).
Proof. reflexivity. Qed.

Lemma parse_limit_range (q : list (string * string)) : 1 <= parse_limit q <= 1000.
Proof. unfold parse_limit. destruct (query_get q "limit"); lia. Qed.


Lemma parse_limit_missing (q : list (string * string)) :
  query_get q "limit" = None -> parse_limit q = 50.
Proof. unfold parse_limit. now intros ->. Qed.

Lemma parse_limit_invalid (q : list (string * string)) (v : string) :
  query_get q "limit" = Some v -> parseInt v = None -> parse_limit q = 50.
Proof. unfold parse_limit. now intros -> ->. Qed.

(** A parsed limit other than zero is clamped into 1..1000. *)
Lemma parse_limit_clamps (q : list (string * string)) (v : string) (n : Z) :
  query_get q "limit" = Some v -> parseInt v = Some n -> n <> 0 ->
  parse_limit q = Z.min (Z.max n 1) 1000.
Proof.
  unfold parse_limit. intros -> -> Hn. cbn. now rewrite (proj2 (Z.eqb_neq n 0) Hn).
Qed.

Lemma parse_offset_clamps (q : list (string * string)) (v : string) (n : Z) :
  query_get q "offset" = Some v -> parseInt v = Some n ->
  parse_offset q = Z.max n 0.
Proof.
  unfold parse_offset. intros -> ->. cbn. destruct (Z.eqb_spec n 0) as [->|]; reflexivity.
Qed.

Lemma parse_offset_default (q : list (string * string)) :
  query_get q "offset" = None \/
  (exists v, query_get q "offset" = Some v /\ parseInt v = None) ->
  parse_offset q = 0.
Proof. unfold parse_offset. intros [->|(v & -> & ->)]; reflexivity. Qed.

(** C5: what the list route does with limit=0.  [parseInt] yields 0, which
    is falsy, so [|| 50] replaces it before the clamp is applied: the
    request is served exactly like one without a limit, with 50 rows at
    most, whereas limit=1 and every negative limit are served with 1. *)
Theorem C5_limit_zero_is_served_as_fifty (a : Adapter) (w : World) :
  parse_limit [("limit", "0")] = 50 /\
  parse_limit [("limit", "1")] = 1 /\
  parse_limit [("limit", "-5")] = 1 /\
  serve a w (mkRequest (Some "GET") "/events" [("limit", "0")] None "")
  = serve a w (mkRequest (Some "GET") "/events" [] None "") /\
  serve a w (mkRequest (Some "GET") "/events" [("limit", "0")] None "")
  = serve a w (mkRequest (Some "GET") "/events" [("limit", "50")] None "").
Proof. repeat split; reflexivity. Qed.

(** *** The ingest route *)

(** An event with an invalid date never reaches the database: whatever the
    state of the adapter, [insert] throws. *)
Lemma insert_invalid_throws (a : Adapter) (e : WebhookEvent) (w : World) :
  valid_event e = false -> exists x, insert a e w = Throw x.
Proof.
  intros He.
  assert (Hp : exists x, insert_params e = Throw x).
  { destruct e as [i ty eid d [c|] [r|]]; cbn in *; try discriminate; eauto. }
  destruct Hp as [x Hp].
  adapter_cases a.
  - destruct pool; cbn; [rewrite Hp|]; eauto.
  - destruct pool; cbn; [rewrite Hp|]; eauto.
  - destruct handle; cbn; [|eauto].
    destruct (tables w !! tableName); [rewrite Hp|]; cbn; eauto.
Qed.

Lemma verify_true_nonempty (payload signature secret : string) :
  verifyWebhookSignature payload signature secret = true -> str_falsy signature = false.
Proof.
  intros Hv. apply verify_true_iff in Hv as (_ & Hs & _). now apply str_falsy_false.
Qed.

(** A verified request whose body parses goes on to [build_event] and
    [insert]. *)
Lemma route_verified (a : Adapter) (w : World) (req : Request) (sig : string) (payload : JSON) :
  request_method req = "POST" -> req_path req = "/webhook" ->
  req_signature req = Some sig ->
  verifyWebhookSignature (req_body req) sig (secret config) = true ->
  JSON_parse (req_body req) = Some payload ->
  dispatch a w req =
  (event <-! build_event Date_parse ToString rt payload ;;
   w' <-! insert a event w ;;
   Ok (w', sendJson 200 (Received true (ev_id event)))).
Proof.
  intros Hm Hp Hs Hv Hj. rewrite (route_webhook a w req Hm Hp), Hs.
  rewrite (verify_true_nonempty _ _ _ Hv), Hv, Hj. reflexivity.
Qed.

(** The [created_at] of the event literal, by cases on the payload field:
    absent or falsy, it is the ingest time; a string that [Date.parse]
    reads, the instant read; a string that it does not read, the invalid
    date. *)
Lemma created_at_falsy (members : list (string * JSON)) (v : option JSON) (e : WebhookEvent) :
  get_property (JObj members) "created_at" = Ok v -> truthy v = false ->
  build_event Date_parse ToString rt (JObj members) = Ok e ->
  created_at e = ValidDate (now rt 0).
Proof.
  intros Hg Ht. unfold build_event. cbn [get_property] in *. injection Hg as Hg.
  cbn [rbind]. rewrite Hg, Ht. now intros [= <-].
Qed.

Lemma created_at_parsed (members : list (string * JSON)) (s : string) (ms : Z)
    (e : WebhookEvent) :
  get_property (JObj members) "created_at" = Ok (Some (JStr s)) -> s <> EmptyString ->
  Date_parse s = Some ms -> Z.abs ms <= 8640000000000000 ->
  build_event Date_parse ToString rt (JObj members) = Ok e ->
  created_at e = ValidDate ms.
Proof.
  intros Hg Hs Hd Hr. unfold build_event. cbn [get_property] in *. injection Hg as Hg.
  cbn [rbind]. rewrite Hg. cbn [truthy default from_option id new_Date].
  rewrite (proj2 (str_falsy_false s) Hs), Hd. cbn [negb]. unfold timeClip.
  rewrite (proj2 (Z.leb_le _ _) Hr). now intros [= <-].
Qed.

Lemma created_at_unparsed (members : list (string * JSON)) (s : string) :
  get_property (JObj members) "created_at" = Ok (Some (JStr s)) -> s <> EmptyString ->
  Date_parse s = None ->
  exists e, build_event Date_parse ToString rt (JObj members) = Ok e /\
            created_at e = InvalidDate /\ valid_event e = false.
Proof.
  intros Hg Hs Hd. unfold build_event. cbn [get_property] in *. injection Hg as Hg.
  cbn [rbind]. rewrite Hg. cbn [truthy default from_option id new_Date].
  rewrite (proj2 (str_falsy_false s) Hs), Hd. cbn [negb].
  eexists. split; [reflexivity|]. split; reflexivity.
Qed.

(** C6: a verified POST /webhook whose JSON body has a [created_at] string
    that [Date.parse] does not read.  The event built for it carries the
    invalid date, not the ingest time; [insert] throws on it in every
    adapter variant, so nothing is stored and the response is a 500. *)
Theorem C6_unparseable_created_at (a : Adapter) (w : World) (req : Request)
    (sig : string) (members : list (string * JSON)) (s : string) :
  request_method req = "POST" -> req_path req = "/webhook" ->
  req_signature req = Some sig ->
  verifyWebhookSignature (req_body req) sig (secret config) = true ->
  JSON_parse (req_body req) = Some (JObj members) ->
  get_property (JObj members) "created_at" = Ok (Some (JStr s)) ->
  s <> EmptyString -> Date_parse s = None ->
  (exists e, build_event Date_parse ToString rt (JObj members) = Ok e /\
             created_at e = InvalidDate) /\
  serve a w req = (w, sendJson 500 (ErrorMessage "Internal server error")).
Proof.
  intros Hm Hp Hs Hv Hj Hg Hne Hd.
  destruct (created_at_unparsed members s Hg Hne Hd) as (e & Hb & Hc & Hinv).
  split; [eauto|].
  unfold handler. rewrite (route_verified a w req sig _ Hm Hp Hs Hv Hj), Hb.
  cbn [rbind]. destruct (insert_invalid_throws a e w Hinv) as [x ->]. reflexivity.
Qed.

(** *** Unauthorized requests *)

Lemma handler_missing_signature (a : Adapter) (w : World) (req : Request) :
  request_method req = "POST" -> req_path req = "/webhook" ->
  req_signature req = None \/ req_signature req = Some EmptyString ->
  serve a w req = (w, sendJson 401 (ErrorMessage "Missing x-veilmail-signature header")).
Proof.
  intros Hm Hp Hs. unfold handler. rewrite (route_webhook a w req Hm Hp).
  destruct Hs as [-> | ->]; reflexivity.
Qed.

Lemma handler_invalid_signature (a : Adapter) (w : World) (req : Request) (sig : string) :
  request_method req = "POST" -> req_path req = "/webhook" ->
  req_signature req = Some sig -> sig <> EmptyString ->
  verifyWebhookSignature (req_body req) sig (secret config) = false ->
  serve a w req = (w, sendJson 401 (ErrorMessage "Invalid webhook signature")).
Proof.
  intros Hm Hp Hs Hne Hv. unfold handler. rewrite (route_webhook a w req Hm Hp), Hs.
  rewrite (proj2 (str_falsy_false sig) Hne), Hv. reflexivity.
Qed.

(** C7 (amended): a POST /webhook without the signature header and the same
    request with a signature that does not verify are both answered with
    status 401 and leave the database untouched; the bodies are two
    different messages, each naming the check that failed. *)
Theorem C7_unauthorized_responses (a : Adapter) (w : World) (missing invalid : Request)
    (sig : string) :
  request_method missing = "POST" -> req_path missing = "/webhook" ->
  request_method invalid = "POST" -> req_path invalid = "/webhook" ->
  req_body invalid = req_body missing ->
  req_signature missing = None ->
  req_signature invalid = Some sig -> sig <> EmptyString ->
  verifyWebhookSignature (req_body invalid) sig (secret config) = false ->
  serve a w missing
    = (w, sendJson 401 (ErrorMessage "Missing x-veilmail-signature header")) /\
  serve a w invalid
    = (w, sendJson 401 (ErrorMessage "Invalid webhook signature")).
Proof.
  intros Hm1 Hp1 Hm2 Hp2 _ Hs1 Hs2 Hne Hv. split.
  - apply handler_missing_signature; auto.
  - now apply (handler_invalid_signature a w invalid sig).
Qed.

(** *** The list route and the empty type *)



End RouterFacts.

(** With two stored events, limit=0 returns both and limit=1 one. *)
Lemma limit_zero_differs_from_one :
  let serve := handler example_JSON_parse example_Date_parse example_ToString
                       example_runtime (example_config sqlite) example_sqlite example_world_2 in
  body (snd (serve (mkRequest (Some "GET") "/events" [("limit", "0")] None "")))
    = EventList [example_event "1" "email.delivered" 2000; example_event "2" "" 1000] 2 /\
  body (snd (serve (mkRequest (Some "GET") "/events" [("limit", "1")] None "")))
    = EventList [example_event "1" "email.delivered" 2000] 1.
Proof. split; vm_compute; reflexivity. Qed.

Lemma C6_witness :
  (exists e, build_event example_Date_parse example_ToString example_runtime
               (JObj [("created_at", JStr "not-a-date")]) = Ok e /\
             created_at e = InvalidDate) /\
  example_handler postgres example_pg example_world_1 request_bad_date
    = (example_world_1, sendJson 500 (ErrorMessage "Internal server error")).
Proof.
  apply (C6_unparseable_created_at example_JSON_parse example_Date_parse example_ToString
           example_runtime (example_config postgres) example_pg example_world_1
           request_bad_date (hexEncode (hmacSha256 "k" body_bad_date))
           [("created_at", JStr "not-a-date")] "not-a-date").
  - reflexivity.
  - reflexivity.
  - reflexivity.
  - exact (verify_correct body_bad_date "k" ltac:(discriminate) ltac:(discriminate)).
  - reflexivity.
  - reflexivity.
  - discriminate.
  - reflexivity.
Defined.

(** C7 (as stated) fails: the response to a request without the header and
    the response to the same request with the signature 00 are not the
    same; each body names the check that failed. *)
Lemma C7_counterexample :
  example_handler postgres example_pg example_world_1 request_unsigned
    = (example_world_1, sendJson 401 (ErrorMessage "Missing x-veilmail-signature header")) /\
  example_handler postgres example_pg example_world_1 request_missigned
    = (example_world_1, sendJson 401 (ErrorMessage "Invalid webhook signature")) /\
  snd (example_handler postgres example_pg example_world_1 request_unsigned)
    <> snd (example_handler postgres example_pg example_world_1 request_missigned).
Proof.
  assert (H1 : example_handler postgres example_pg example_world_1 request_unsigned
    = (example_world_1, sendJson 401 (ErrorMessage "Missing x-veilmail-signature header"))).
  { apply (handler_missing_signature example_JSON_parse example_Date_parse example_ToString
             example_runtime (example_config postgres) example_pg example_world_1
             request_unsigned); [reflexivity | reflexivity | now left]. }
  assert (H2 : example_handler postgres example_pg example_world_1 request_missigned
    = (example_world_1, sendJson 401 (ErrorMessage "Invalid webhook signature"))).
  { apply (handler_invalid_signature example_JSON_parse example_Date_parse example_ToString
             example_runtime (example_config postgres) example_pg example_world_1
             request_missigned "00");
      [reflexivity | reflexivity | reflexivity | discriminate |].
    apply verify_wrong_length. cbn. discriminate. }
  split; [exact H1|]. split; [exact H2|]. rewrite H1, H2. discriminate.
Qed.

Lemma C7_witness :
  example_handler postgres example_pg example_world_1 request_unsigned
    = (example_world_1, sendJson 401 (ErrorMessage "Missing x-veilmail-signature header")) /\
  example_handler postgres example_pg example_world_1 request_missigned
    = (example_world_1, sendJson 401 (ErrorMessage "Invalid webhook signature")).
Proof.
  apply (C7_unauthorized_responses example_JSON_parse example_Date_parse example_ToString
           example_runtime (example_config postgres) example_pg example_world_1
           request_unsigned request_missigned "00").
  - reflexivity.
  - reflexivity.
  - reflexivity.
  - reflexivity.
  - reflexivity.
  - reflexivity.
  - reflexivity.
  - discriminate.
  - apply verify_wrong_length. cbn. discriminate.
Defined.


(* ===================================================================== *)
(** * Further properties                                                  *)
(* ===================================================================== *)

(** ** More on the signature verifier *)

(** X1: [verifyWebhookSignature] returns true exactly when the payload, the
    signature and the secret are not empty and the bytes that hex decoding
    reads from the signature are the HMAC-SHA-256 of the payload under the
    secret. *)
Theorem X1_verify_accepts_exactly (payload signature secret : string) :
  verifyWebhookSignature payload signature secret = true <->
  payload <> EmptyString /\ signature <> EmptyString /\ secret <> EmptyString /\
  Buffer_from_hex signature = hmacSha256 secret payload.
Proof. apply verify_true_iff. Qed.








Lemma Buffer_from_hex_length (s : string) :
  (2 * List.length (Buffer_from_hex s) <= String.length s)%nat.
Proof.
  revert s. fix IH 1. intros [|c1 [|c2 rest]]; [cbn; lia | cbn; lia |].
  cbn [Buffer_from_hex String.length].
  destruct (unhex c1), (unhex c2); cbn [List.length]; try lia.
  specialize (IH rest). lia.
Qed.

(** X4: a signature shorter than 64 characters is never accepted, whatever
    the payload and the secret. *)
Theorem X4_short_signature_is_rejected (payload signature secret : string) :
  (String.length signature < 64)%nat ->
  verifyWebhookSignature payload signature secret = false.
Proof.
  intros Hl. apply verify_wrong_length.
  pose proof (Buffer_from_hex_length signature). lia.
Qed.

Lemma X4_witness :
  verifyWebhookSignature "x" "c38edc8815c8489f64738978f44008f8596345545f0baa68ef6fcf5c53e5718" "k"
  = false.
Proof.
  apply (X4_short_signature_is_rejected "x"
           "c38edc8815c8489f64738978f44008f8596345545f0baa68ef6fcf5c53e5718" "k").
  cbn. lia.
Defined.

(** ** More on the adapters *)

Lemma insert_params_Ok (e : WebhookEvent) (row : Row) :
  insert_params e = Ok row -> valid_event e = true /\ row = row_of_event e.
Proof.
  destruct e as [i ty eid d [c|] [r|]]; cbn; intros H; try discriminate.
  injection H as <-. split; reflexivity.
Qed.

(** An [insert] that returns was given an event with valid dates by an
    adapter that holds a handle, and ran its INSERT on the event's row. *)
Lemma insert_Ok_row (a : Adapter) (e : WebhookEvent) (w w' : World) :
  insert a e w = Ok w' ->
  valid_event e = true /\ has_handle a = true /\
  exists db, sql_insert (clause_of a) (adapter_table a) (row_of_event e) (tables w) = Ok db /\
             w' = set_tables w db.
Proof.
  intros H. adapter_cases a.
  - destruct pool; [|discriminate]. cbn in H.
    destruct (insert_params e) as [row|] eqn:Ep; [|discriminate]. cbn in H.
    apply insert_params_Ok in Ep as [Hv ->].
    destruct (reachable w); [|discriminate].
    destruct (sql_insert _ _ _ _) as [db|] eqn:E; [|discriminate].
    injection H as <-. eauto.
  - destruct pool; [|discriminate]. cbn in H.
    destruct (insert_params e) as [row|] eqn:Ep; [|discriminate]. cbn in H.
    apply insert_params_Ok in Ep as [Hv ->].
    destruct (reachable w); [|discriminate].
    destruct (sql_insert _ _ _ _) as [db|] eqn:E; [|discriminate].
    injection H as <-. eauto.
  - destruct handle; [|discriminate]. cbn in H.
    destruct (tables w !! tableName); [|discriminate].
    destruct (insert_params e) as [row|] eqn:Ep; [|discriminate]. cbn in H.
    apply insert_params_Ok in Ep as [Hv ->].
    destruct (sql_insert _ _ _ _) as [db|] eqn:E; [|discriminate].
    injection H as <-. eauto.
Qed.

(** X5: an [insert] that returns has changed nothing, or has appended the
    row of its event at the end of the adapter's table: the rows that were
    stored are still there, unaltered and in the same order, and no other
    table is touched. *)
Theorem X5_insert_only_appends (a : Adapter) (e : WebhookEvent) (w w' : World) :
  insert a e w = Ok w' ->
  (forall name, name <> adapter_table a -> tables w' !! name = tables w !! name) /\
  (w' = w \/
   rows_of w' (adapter_table a) = rows_of w (adapter_table a) ++ [row_of_event e]).
Proof.
  intros H. apply insert_Ok_row in H as (_ & _ & db & Hs & ->).
  apply sql_insert_Ok in Hs as [->|(t & Ht & _ & _ & ->)].
  - split; [reflexivity|]. left. apply set_tables_same.
  - split.
    + intros name Hne. cbn. now rewrite lookup_insert_ne.
    + right. unfold rows_of. cbn. now rewrite lookup_insert_eq, Ht.
Qed.

Lemma X5_witness :
  let e := example_event "3" "email.opened" 3000 in
  let w' := after_insert example_sqlite e example_world_2 in
  (forall name, name <> "veilmail_webhook_events" ->
                tables w' !! name = tables example_world_2 !! name) /\
  (w' = example_world_2 \/
   rows_of w' "veilmail_webhook_events"
   = rows_of example_world_2 "veilmail_webhook_events" ++ [row_of_event e]).
Proof.
  apply (X5_insert_only_appends example_sqlite (example_event "3" "email.opened" 3000)
           example_world_2).
  vm_compute. reflexivity.
Defined.

(** A [query] that returns has read the adapter's table through its
    SELECT statement. *)
Lemma query_Ok (a : Adapter) (o : option QueryOptions) (w : World) (res : list WebhookEvent) :
  query a o w = Ok res ->
  exists t lim,
    tables w !! adapter_table a = Some t /\
    (0 <= limit_of o -> lim = Some (Z.to_nat (limit_of o))) /\
    res = map row_to_event (sql_select (type_condition o) lim (Z.to_nat (offset_of o)) t).
Proof.
  intros H. adapter_cases a.
  - destruct pool; [|discriminate]. cbn in H. destruct (reachable w); [|discriminate].
    unfold sql_select_strict in H. destruct (tables w !! tableName) as [t|]; [|discriminate].
    destruct ((limit_of o <? 0) || (offset_of o <? 0)); [discriminate|].
    cbn in H. injection H as <-. exists t, (Some (Z.to_nat (limit_of o))). auto.
  - destruct pool; [|discriminate]. cbn in H. destruct (reachable w); [|discriminate].
    unfold sql_select_strict in H. destruct (tables w !! tableName) as [t|]; [|discriminate].
    destruct ((limit_of o <? 0) || (offset_of o <? 0)); [discriminate|].
    cbn in H. injection H as <-. exists t, (Some (Z.to_nat (limit_of o))). auto.
  - destruct handle; [|discriminate]. cbn in H.
    unfold sql_select_sqlite in H. destruct (tables w !! tableName) as [t|]; [|discriminate].
    cbn in H. injection H as <-.
    exists t, (if limit_of o <? 0 then None else Some (Z.to_nat (limit_of o))).
    split; [reflexivity|]. split; [|reflexivity].
    intros Hl. now rewrite (proj2 (Z.ltb_ge _ _) Hl).
Qed.






Lemma sql_create_table_exists (name : string) (db : gmap string (list Row)) :
  is_Some (sql_create_table name db !! name).
Proof.
  unfold sql_create_table. destruct (db !! name) as [t|] eqn:E.
  - rewrite E. eauto.
  - rewrite lookup_insert_eq. eauto.
Qed.

Lemma sql_create_table_keeps (name n : string) (db : gmap string (list Row)) :
  is_Some (db !! n) -> sql_create_table name db !! n = db !! n.
Proof.
  intros [x Hx]. unfold sql_create_table. destruct (db !! name) eqn:E; [reflexivity|].
  rewrite lookup_insert_ne; [reflexivity | congruence].
Qed.

Lemma sql_create_table_twice (name : string) (db : gmap string (list Row)) :
  sql_create_table name (sql_create_table name db) = sql_create_table name db.
Proof.
  destruct (sql_create_table_exists name db) as [t Ht].
  unfold sql_create_table at 1. now rewrite Ht.
Qed.

(** X7: [createTable] can be repeated: a second call returns the same
    database as the first; and a call never changes a table that exists,
    the events table with its rows included. *)
Theorem X7_createTable_is_idempotent (a : Adapter) (w w' : World) :
  createTable a w = Ok w' ->
  createTable a w' = Ok w' /\
  is_Some (tables w' !! adapter_table a) /\
  (forall name, is_Some (tables w !! name) -> tables w' !! name = tables w !! name).
Proof.
  intros H. adapter_cases a.
  - destruct pool; [|discriminate]. cbn in *. destruct (reachable w) eqn:Hr; [|discriminate].
    injection H as <-. cbn. rewrite Hr, sql_create_table_twice.
    split; [reflexivity|]. split; [apply sql_create_table_exists|].
    intros name. apply sql_create_table_keeps.
  - destruct pool; [|discriminate]. cbn in *. destruct (reachable w) eqn:Hr; [|discriminate].
    injection H as <-. cbn. rewrite Hr, sql_create_table_twice.
    split; [reflexivity|]. split; [apply sql_create_table_exists|].
    intros name. apply sql_create_table_keeps.
  - destruct handle; [|discriminate]. cbn in *.
    injection H as <-. cbn. rewrite sql_create_table_twice.
    split; [reflexivity|]. split; [apply sql_create_table_exists|].
    intros name. apply sql_create_table_keeps.
Qed.

Lemma X7_witness :
  createTable example_sqlite example_world_2 = Ok example_world_2 /\
  is_Some (tables example_world_2 !! "veilmail_webhook_events") /\
  (forall name, is_Some (tables example_world_2 !! name) ->
                tables example_world_2 !! name = tables example_world_2 !! name).
Proof.
  apply (X7_createTable_is_idempotent example_sqlite example_world_2 example_world_2).
  vm_compute. reflexivity.
Defined.

Lemma query_page (a : Adapter) (w : World) (t : list Row) (ty : option string) (l o : Z) :
  connected a w = true -> tables w !! adapter_table a = Some t ->
  0 <= l -> 0 <= o ->
  query a (Some (mkQuery ty (Some l) (Some o))) w =
  Ok (map row_to_event
        (take (Z.to_nat l)
           (drop (Z.to_nat o)
              (merge_sort created_desc (List.filter (code_type_filter ty) t))))).
Proof.
  intros Hc Ht Hl Ho.
  rewrite (query_connected a w t _ Hc Ht) by (unfold limit_of, offset_of; cbn; lia).
  unfold sql_select, limit_of, offset_of. cbn [mbind option_bind q_limit q_offset default from_option id].
  assert (List.filter (type_matches (type_condition (Some (mkQuery ty (Some l) (Some o))))) t
          = List.filter (code_type_filter ty) t) as ->; [|reflexivity].
  apply filter_ext. intros r. apply type_condition_filter.
Qed.



(** X9: the number of events a query returns on a connected adapter is the
    limit, or what is left of the matching rows after the offset when that
    is less; the adapters themselves apply no upper bound to the limit. *)
Theorem X9_query_result_count
    (a : Adapter) (w : World) (t : list Row) (ty : option string) (l o : Z)
    (res : list WebhookEvent) :
  connected a w = true -> tables w !! adapter_table a = Some t ->
  0 <= l -> 0 <= o ->
  query a (Some (mkQuery ty (Some l) (Some o))) w = Ok res ->
  List.length res
  = Nat.min (Z.to_nat l) (List.length (List.filter (code_type_filter ty) t) - Z.to_nat o).
Proof.
  intros Hc Ht Hl Ho Hq. rewrite (query_page a w t ty l o Hc Ht Hl Ho) in Hq.
  injection Hq as <-.
  now rewrite length_map, length_take, length_drop, merge_sort_Permutation.
Qed.

Lemma X9_witness :
  List.length [example_event "1" "email.delivered" 2000; example_event "2" "" 1000]
  = Nat.min (Z.to_nat 5000)
      (List.length (List.filter (code_type_filter None)
                      [row_of_event (example_event "1" "email.delivered" 2000);
                       row_of_event (example_event "2" "" 1000)]) - Z.to_nat 0).
Proof.
  apply (X9_query_result_count example_sqlite example_world_2
           [row_of_event (example_event "1" "email.delivered" 2000);
            row_of_event (example_event "2" "" 1000)] None 5000 0).
  - reflexivity.
  - reflexivity.
  - lia.
  - lia.
  - vm_compute. reflexivity.
Defined.

(** X10: the variants differ on one kind of conflict.  When the [id] of
    the event is already stored but its [event_id] is not, the PostgreSQL
    adapter's [ON CONFLICT (event_id) DO NOTHING] does not cover the clash
    and [insert] throws the unique violation, while the MySQL and SQLite
    adapters ignore the row and return; in both cases nothing is stored. *)
Theorem X10_primary_key_clash (a : Adapter) (e : WebhookEvent) (w : World) (t : list Row) :
  connected a w = true -> tables w !! adapter_table a = Some t ->
  valid_event e = true ->
  has_event_id (event_id e) t = false -> has_id (ev_id e) t = true ->
  insert a e w = match a with
                 | OfPostgres _ => Throw (DriverError "unique_violation")
                 | OfMysql _ | OfSqlite _ => Ok w
                 end /\
  after_insert a e w = w.
Proof.
  intros Hc Ht Hv He Hi.
  assert (Hins : insert a e w = match a with
                 | OfPostgres _ => Throw (DriverError "unique_violation")
                 | OfMysql _ | OfSqlite _ => Ok w
                 end).
  { rewrite (insert_connected a e w t Hc Ht), (insert_params_valid e Hv). cbn [rbind].
    unfold sql_insert. rewrite Ht. cbn [row_of_event row_event_id row_id].
    rewrite He, Hi. destruct a; cbn; try reflexivity; now rewrite set_tables_same. }
  split; [exact Hins|]. unfold after_insert. rewrite Hins. now destruct a.
Qed.

Lemma X10_witness :
  let e := mkEvent "id_1" "email.bounced" "evt_other" (JObj []) (ValidDate 5) (ValidDate 6) in
  insert example_pg e example_world_1 = Throw (DriverError "unique_violation") /\
  after_insert example_pg e example_world_1 = example_world_1.
Proof.
  apply (X10_primary_key_clash example_pg
           (mkEvent "id_1" "email.bounced" "evt_other" (JObj []) (ValidDate 5) (ValidDate 6))
           example_world_1 [row_of_event (example_event "1" "email.delivered" 1000)]);
    reflexivity.
Defined.





(** X13: a closed adapter can be connected again.  After [close], a
    [connect] that finds the driver and reaches the database returns
    without throwing and leaves an adapter of the same class that is
    connected and has the same table name. *)
Theorem X13_reconnect_after_close (a : Adapter) (w : World) (db : gmap string (list Row)) :
  let closed := fst (close a w) in
  let again := connect closed (live_world db) in
  snd again = Ok tt /\
  connected (fst again) (live_world db) = true /\
  adapter_table (fst again) = adapter_table a /\
  adapter_kind (fst again) = adapter_kind a.
Proof. adapter_cases a; (destruct pool || destruct handle); cbn; auto. Qed.

(** ** More on the router *)

Section RouterMore.

Variable JSON_parse : string -> option JSON.
Variable Date_parse : string -> option Z.
Variable ToString : JSON -> string.
Variable config : IngesterConfig.

#[local] Abbreviation run := (handler JSON_parse Date_parse ToString).
#[local] Abbreviation normalize := (build_event Date_parse ToString).

(** X15: the only requests that change the database are the POST /webhook
    requests answered with 200, and what such a request changes is what one
    [insert] of the adapter changes; every other request, every GET and
    every request answered with an error, leaves the database as it was. *)
Theorem X15_only_ingest_writes (rt : Runtime) (a : Adapter) (w : World) (req : Request) :
  fst (run rt config a w req) = w \/
  (request_method req = "POST" /\ req_path req = "/webhook" /\
   statusCode (snd (run rt config a w req)) = 200 /\
   exists e, insert a e w = Ok (fst (run rt config a w req))).
Proof.
  unfold handler, route.
  destruct (bool_decide (request_method req = "GET") && bool_decide (req_path req = "/health"));
    [now left|].
  destruct (bool_decide (request_method req = "GET") && bool_decide (req_path req = "/events")).
  { destruct (query a _ w); now left. }
  destruct (bool_decide (request_method req = "POST") && bool_decide (req_path req = "/webhook"))
    eqn:Hpost; [|now left].
  apply andb_true_iff in Hpost as [Hm Hp].
  apply bool_decide_eq_true in Hm, Hp.
  destruct (req_signature req) as [sig|]; [|now left].
  destruct (str_falsy sig); [now left|].
  destruct (negb (verifyWebhookSignature (req_body req) sig (secret config))); [now left|].
  destruct (JSON_parse (req_body req)) as [payload|]; [|now left].
  destruct (build_event Date_parse ToString rt payload) as [e|]; [|now left].
  cbn [rbind]. destruct (insert a e w) as [w'|] eqn:Hi; [|now left].
  right. split; [assumption|]. split; [assumption|]. split; [reflexivity|].
  exists e. exact Hi.
Qed.


(** X17: the health route does not look at the adapter or at the database:
    GET /health is answered 200 with status ok and the configured backend
    kind even by an adapter that was never connected and with a server
    that cannot be reached. *)
Theorem X17_health_ignores_the_adapter (rt : Runtime) (a : Adapter) (w : World) (req : Request) :
  request_method req = "GET" -> req_path req = "/health" ->
  run rt config a w req
  = (w, sendJson 200 (HealthStatus "ok" (now rt 0) (db_type (database config)))).
Proof. intros Hm Hp. unfold handler, route. rewrite Hm, Hp. reflexivity. Qed.

(** X18: a request that passes the signature check is parsed next; when
    [JSON.parse] throws on the body the answer is 400 with
    [{error: 'Invalid JSON payload'}], and nothing is stored. *)
Theorem X18_verified_but_not_json (rt : Runtime) (a : Adapter) (w : World) (req : Request)
    (sig : string) :
  request_method req = "POST" -> req_path req = "/webhook" ->
  req_signature req = Some sig ->
  verifyWebhookSignature (req_body req) sig (secret config) = true ->
  JSON_parse (req_body req) = None ->
  run rt config a w req = (w, sendJson 400 (ErrorMessage "Invalid JSON payload")).
Proof.
  intros Hm Hp Hs Hv Hj. unfold handler.
  rewrite (route_webhook JSON_parse Date_parse ToString rt config a w req Hm Hp), Hs.
  now rewrite (verify_true_nonempty _ _ _ Hv), Hv, Hj.
Qed.

(** X19: the body [null] is valid JSON, so it is not a 400: reading
    [payload.type] on it throws, and a verified request with that body is
    answered 500 with nothing stored. *)
Theorem X19_null_payload_is_a_server_error (rt : Runtime) (a : Adapter) (w : World)
    (req : Request) (sig : string) :
  request_method req = "POST" -> req_path req = "/webhook" ->
  req_signature req = Some sig ->
  verifyWebhookSignature (req_body req) sig (secret config) = true ->
  JSON_parse (req_body req) = Some JNull ->
  run rt config a w req = (w, sendJson 500 (ErrorMessage "Internal server error")).
Proof.
  intros Hm Hp Hs Hv Hj. unfold handler.
  now rewrite (route_verified JSON_parse Date_parse ToString rt config a w req sig _ Hm Hp Hs Hv Hj).
Qed.

(** The event literal on a payload that is not [null]. *)
Lemma build_event_fields (rt : Runtime) (payload : JSON) :
  payload <> JNull ->
  exists ty pid created,
    get_property payload "type" = Ok ty /\
    get_property payload "id" = Ok pid /\
    get_property payload "created_at" = Ok created /\
    normalize rt payload =
    Ok (mkEvent
          (randomUUID rt 0)
          (if nullish ty then "unknown" else as_string ToString (default JNull ty))
          (if nullish pid then randomUUID rt 1 else as_string ToString (default JNull pid))
          payload
          (if truthy created then new_Date Date_parse ToString (default JNull created)
           else ValidDate (now rt 0))
          (ValidDate (now rt (if truthy created then 0 else 1)%nat))).
Proof.
  intros Hn. unfold build_event.
  destruct payload; try congruence; cbn [get_property rbind]; eauto 10.
Qed.

(** X22: the normalizer.  On every parsed payload other than [null] the
    event literal is built without throwing; its [id] is the first fresh
    UUID whatever the payload says, its [data] is the payload as it is, and
    its [received_at] is a clock reading.  A payload that is not an object
    (an array, a number, a string, a boolean) is accepted like an empty
    object: type unknown, a fresh [event_id], created at the ingest time. *)
Theorem X22_event_literal (rt : Runtime) (payload : JSON) :
  payload <> JNull ->
  exists e,
    normalize rt payload = Ok e /\
    ev_id e = randomUUID rt 0 /\ data e = payload /\
    valid_date (received_at e) = true /\
    ((forall members, payload <> JObj members) ->
     event_type e = "unknown" /\ event_id e = randomUUID rt 1 /\
     created_at e = ValidDate (now rt 0) /\ received_at e = ValidDate (now rt 1)).
Proof.
  intros Hn. destruct (build_event_fields rt payload Hn) as (ty & pid & cr & H1 & H2 & H3 & ->).
  eexists. split; [reflexivity|]. cbn. repeat split.
  all: destruct payload; try congruence;
       try (exfalso; now eapply H);
       cbn in H1, H2, H3; injection H1 as <-; injection H2 as <-; injection H3 as <-;
       reflexivity.
Qed.



(** The adapters return at most [limit] events when the limit is not
    negative, in whatever state they are. *)
Lemma query_at_most_limit (a : Adapter) (o : option QueryOptions) (w : World)
    (res : list WebhookEvent) :
  query a o w = Ok res -> 0 <= limit_of o -> (List.length res <= Z.to_nat (limit_of o))%nat.
Proof.
  intros Hq Hl. apply query_Ok in Hq as (t & lim & _ & Hlim & ->).
  rewrite (Hlim Hl). unfold sql_select. rewrite length_map. apply firstn_le_length.
Qed.

(** X21: whatever the query string, the answer to GET /events is either a
    500 or a 200 whose [count] is the number of events listed, and that
    number is at most 1000, the bound the router clamps [limit] to; the
    database is not changed. *)
Theorem X21_list_is_bounded (rt : Runtime) (a : Adapter) (w : World) (req : Request) :
  request_method req = "GET" -> req_path req = "/events" ->
  run rt config a w req = (w, sendJson 500 (ErrorMessage "Internal server error")) \/
  exists events,
    run rt config a w req = (w, sendJson 200 (EventList events (List.length events))) /\
    (List.length events <= 1000)%nat.
Proof.
  intros Hm Hp. unfold handler.
  rewrite (route_events JSON_parse Date_parse ToString rt config a w req Hm Hp).
  destruct (query a _ w) as [events|] eqn:Hq; [|now left].
  right. exists events. split; [reflexivity|].
  apply query_at_most_limit in Hq.
  - unfold limit_of in Hq. cbn in Hq.
    pose proof (parse_limit_range (req_query req)). lia.
  - unfold limit_of. cbn. pose proof (parse_limit_range (req_query req)). lia.
Qed.

End RouterMore.


Lemma X17_witness :
  handler example_JSON_parse example_Date_parse example_ToString example_runtime
          (example_config postgres)
          (createAdapter (mkDatabaseConfig postgres "postgres://db") None)
          (mkWorld false false false ∅)
          (mkRequest None "/health" [] None "")
  = (mkWorld false false false ∅,
     sendJson 200 (HealthStatus "ok" 1750000000000 postgres)).
Proof.
  apply (X17_health_ignores_the_adapter example_JSON_parse example_Date_parse example_ToString
           (example_config postgres) example_runtime
           (createAdapter (mkDatabaseConfig postgres "postgres://db") None)
           (mkWorld false false false ∅) (mkRequest None "/health" [] None ""));
    reflexivity.
Defined.

Lemma X18_witness :
  handler example_JSON_parse example_Date_parse example_ToString example_runtime
          (example_config sqlite) example_sqlite example_world_2 (signed_request "{oops")
  = (example_world_2, sendJson 400 (ErrorMessage "Invalid JSON payload")).
Proof.
  apply (X18_verified_but_not_json example_JSON_parse example_Date_parse example_ToString
           (example_config sqlite) example_runtime example_sqlite example_world_2
           (signed_request "{oops") (hexEncode (hmacSha256 "k" "{oops"))).
  - reflexivity.
  - reflexivity.
  - reflexivity.
  - exact (verify_correct "{oops" "k" ltac:(discriminate) ltac:(discriminate)).
  - reflexivity.
Defined.

Lemma X19_witness :
  handler null_JSON_parse example_Date_parse example_ToString example_runtime
          (example_config sqlite) example_sqlite example_world_2 (signed_request "null")
  = (example_world_2, sendJson 500 (ErrorMessage "Internal server error")).
Proof.
  apply (X19_null_payload_is_a_server_error null_JSON_parse example_Date_parse example_ToString
           (example_config sqlite) example_runtime example_sqlite example_world_2
           (signed_request "null") (hexEncode (hmacSha256 "k" "null"))).
  - reflexivity.
  - reflexivity.
  - reflexivity.
  - exact (verify_correct "null" "k" ltac:(discriminate) ltac:(discriminate)).
  - reflexivity.
Defined.


Lemma X21_witness :
  handler example_JSON_parse example_Date_parse example_ToString example_runtime
          (example_config sqlite) example_sqlite example_world_2
          (mkRequest (Some "GET") "/events" [("limit", "999999")] None "")
  = (example_world_2, sendJson 500 (ErrorMessage "Internal server error")) \/
  exists events,
    handler example_JSON_parse example_Date_parse example_ToString example_runtime
            (example_config sqlite) example_sqlite example_world_2
            (mkRequest (Some "GET") "/events" [("limit", "999999")] None "")
    = (example_world_2, sendJson 200 (EventList events (List.length events))) /\
    (List.length events <= 1000)%nat.
Proof.
  apply (X21_list_is_bounded example_JSON_parse example_Date_parse example_ToString
           (example_config sqlite) example_runtime example_sqlite example_world_2
           (mkRequest (Some "GET") "/events" [("limit", "999999")] None "")); reflexivity.
Defined.

Lemma X22_witness :
  exists e,
    build_event example_Date_parse example_ToString example_runtime (JArr []) = Ok e /\
    ev_id e = "3f2c1c1e-0000-4000-8000-000000000001" /\ data e = JArr [] /\
    valid_date (received_at e) = true /\
    ((forall members, JArr [] <> JObj members) ->
     event_type e = "unknown" /\ event_id e = "3f2c1c1e-0000-4000-8000-000000000002" /\
     created_at e = ValidDate 1750000000000 /\ received_at e = ValidDate 1750000000001).
Proof.
  apply (X22_event_literal example_Date_parse example_ToString example_runtime (JArr [])).
  discriminate.
Defined.

(** ** The command line *)

Lemma parseArgs_loop_skip (configPath : option string) (pre rest : list string) :
  Forall (fun arg => is_config_flag arg = false) pre ->
  parseArgs_loop configPath (pre ++ rest) = parseArgs_loop configPath rest.
Proof.
  induction 1 as [|arg pre Harg _ IH]; [reflexivity|].
  cbn [app parseArgs_loop]. now rewrite Harg.
Qed.

(** X23: [parseArgs].  Without [--config] or [-c] there is no path; a
    flag takes the argument after it as the path, whatever that argument
    is; of several flags the last one counts; and a flag that ends the
    command line leaves no path, even when an earlier flag had one. *)
Theorem X23_parseArgs_cases (pre mid post : list string) (f1 f2 v1 v2 : string) :
  Forall (fun arg => is_config_flag arg = false) pre ->
  Forall (fun arg => is_config_flag arg = false) mid ->
  Forall (fun arg => is_config_flag arg = false) post ->
  is_config_flag f1 = true -> is_config_flag f2 = true ->
  parseArgs pre = None /\
  parseArgs (pre ++ f1 :: v1 :: post) = Some v1 /\
  parseArgs (pre ++ f1 :: v1 :: mid ++ f2 :: v2 :: post) = Some v2 /\
  parseArgs (pre ++ f1 :: v1 :: mid ++ [f2]) = None.
Proof.
  intros Hpre Hmid Hpost H1 H2. unfold parseArgs.
  assert (Hend : forall acc l, Forall (fun arg => is_config_flag arg = false) l ->
                               parseArgs_loop acc l = acc).
  { intros acc l Hl. rewrite <- (app_nil_r l). now rewrite parseArgs_loop_skip. }
  repeat split.
  - now apply Hend.
  - rewrite parseArgs_loop_skip by assumption. cbn [parseArgs_loop]. rewrite H1.
    now apply Hend.
  - rewrite parseArgs_loop_skip by assumption. cbn [parseArgs_loop]. rewrite H1.
    rewrite parseArgs_loop_skip by assumption. cbn [parseArgs_loop]. rewrite H2.
    now apply Hend.
  - rewrite parseArgs_loop_skip by assumption. cbn [parseArgs_loop]. rewrite H1.
    rewrite parseArgs_loop_skip by assumption. cbn [parseArgs_loop]. now rewrite H2.
Qed.

Lemma X23_witness :
  parseArgs ["--verbose"] = None /\
  parseArgs ("--verbose" :: "-c" :: "-c" :: ["x"]) = Some "-c" /\
  parseArgs ("--verbose" :: "-c" :: "-c" :: ["x"] ++ "--config" :: "b.json" :: ["x"])
    = Some "b.json" /\
  parseArgs ("--verbose" :: "-c" :: "-c" :: ["x"] ++ ["--config"]) = None.
Proof.
  apply (X23_parseArgs_cases ["--verbose"] ["x"] ["x"] "-c" "--config" "-c" "b.json");
    repeat constructor.
Defined.

(** ** The configuration *)

Lemma supported_type_cases (s : string) :
  s ∈ supported_types -> exists t, s = type_name t.
Proof.
  unfold supported_types. intros H.
  repeat (apply elem_of_cons in H as [->|H]);
    [exists postgres | exists mysql | exists sqlite | now apply elem_of_nil in H]; reflexivity.
Qed.

Lemma createAdapter_at_runtime_supported (t : DatabaseType) (url : string)
    (tableName : option string) :
  createAdapter_at_runtime (mkRawDatabase (type_name t) url) tableName
  = Ok (createAdapter (mkDatabaseConfig t url) tableName).
Proof. destruct t; reflexivity. Qed.

Lemma loadConfigFromEnv_Returns (env : gmap string string) (config : RawConfig) :
  loadConfigFromEnv env = Returns config ->
  raw_url (raw_database config) <> EmptyString /\
  raw_secret config <> EmptyString /\
  env !! "DATABASE_URL" = Some (raw_url (raw_database config)) /\
  env !! "WEBHOOK_SECRET" = Some (raw_secret config) /\
  raw_type (raw_database config) ∈ supported_types.
Proof.
  unfold loadConfigFromEnv.
  destruct (env !! "DATABASE_URL") as [url|]; cbn [default from_option id str_falsy];
    [|discriminate].
  destruct (str_falsy url) eqn:Hu; [discriminate|].
  destruct (env !! "WEBHOOK_SECRET") as [sec|]; cbn [default from_option id str_falsy];
    [|discriminate].
  destruct (str_falsy sec) eqn:Hs; [discriminate|].
  case_bool_decide as Ht; cbn [negb]; [|discriminate].
  intros [= <-]. cbn. apply str_falsy_false in Hu, Hs. repeat split; assumption.
Qed.

(** X24: a configuration that [loadConfigFromEnv] returns has the
    database URL and the secret of the environment, neither empty, and
    names one of the three backends, so [createAdapter] does not throw on
    it. *)
Theorem X24_environment_config_is_validated (env : gmap string string) (config : RawConfig) :
  loadConfigFromEnv env = Returns config ->
  raw_url (raw_database config) <> EmptyString /\
  raw_secret config <> EmptyString /\
  env !! "DATABASE_URL" = Some (raw_url (raw_database config)) /\
  env !! "WEBHOOK_SECRET" = Some (raw_secret config) /\
  exists t, raw_type (raw_database config) = type_name t /\
            createAdapter_at_runtime (raw_database config) (Some (raw_tableName config))
            = Ok (createAdapter (mkDatabaseConfig t (raw_url (raw_database config)))
                                (Some (raw_tableName config))).
Proof.
  intros H. destruct (loadConfigFromEnv_Returns env config H) as (Hu & Hs & Eu & Es & Ht).
  repeat split; try assumption.
  destruct (supported_type_cases _ Ht) as [t Et]. exists t. split; [exact Et|].
  destruct config as [port sec [ty url] tn]. cbn in *. subst ty.
  apply createAdapter_at_runtime_supported.
Qed.

Lemma X24_witness :
  loadConfigFromEnv example_env = Returns example_env_config /\
  raw_url (raw_database example_env_config) <> EmptyString /\
  raw_secret example_env_config <> EmptyString /\
  example_env !! "DATABASE_URL" = Some (raw_url (raw_database example_env_config)) /\
  example_env !! "WEBHOOK_SECRET" = Some (raw_secret example_env_config) /\
  exists t, raw_type (raw_database example_env_config) = type_name t /\
            createAdapter_at_runtime (raw_database example_env_config)
              (Some (raw_tableName example_env_config))
            = Ok (createAdapter (mkDatabaseConfig t (raw_url (raw_database example_env_config)))
                                (Some (raw_tableName example_env_config))).
Proof.
  split; [vm_compute; reflexivity|].
  apply (X24_environment_config_is_validated example_env example_env_config).
  vm_compute. reflexivity.
Defined.

Section CliFacts.

Variable loadConfigFromFile : string -> Result PartialConfig.

#[local] Abbreviation configure := (buildConfig loadConfigFromFile).
#[local] Abbreviation run_main := (main loadConfigFromFile).

(** X25: what the configuration file sets hides the environment.  With a
    file that sets all four fields, [buildConfig] gives the same outcome
    under any two environments. *)
Theorem X25_file_hides_environment (args : list string) (path : string)
    (fileConfig : PartialConfig) (env1 env2 : gmap string string) :
  parseArgs args = Some path ->
  str_falsy path = false ->
  loadConfigFromFile path = Ok fileConfig ->
  is_Some (file_port fileConfig) ->
  is_Some (file_secret fileConfig) ->
  is_Some (file_database fileConfig) ->
  is_Some (file_tableName fileConfig) ->
  configure args env1 = configure args env2.
Proof.
  intros Hp Hf Hl [p Ep] [s Es] [d Ed] [n En].
  unfold buildConfig. rewrite Hp, Hf, Hl, Ep, Es, Ed, En. reflexivity.
Qed.

(** X26: a configuration file that sets nothing leaves the environment
    and the defaults in place, but the check of [DATABASE_TYPE] is not
    made: [buildConfig] returns whenever the URL and the secret of the
    environment are not empty, with the type as the environment has it,
    and it returns what [loadConfigFromEnv] returns when that returns. *)
Theorem X26_empty_file_skips_the_type_check (args : list string) (path url sec : string)
    (env : gmap string string) :
  parseArgs args = Some path ->
  str_falsy path = false ->
  loadConfigFromFile path = Ok (mkPartial None None None None) ->
  env !! "DATABASE_URL" = Some url -> url <> EmptyString ->
  env !! "WEBHOOK_SECRET" = Some sec -> sec <> EmptyString ->
  configure args env
  = Returns (mkRawConfig (parseInt (default "4000" (env !! "PORT"))) sec
               (mkRawDatabase (default "postgres" (env !! "DATABASE_TYPE")) url)
               (default "veilmail_webhook_events" (env !! "TABLE_NAME"))) /\
  (forall config, loadConfigFromEnv env = Returns config ->
                  configure args env = Returns config) /\
  (default "postgres" (env !! "DATABASE_TYPE") ∉ supported_types ->
   exists line, loadConfigFromEnv env = Exits 1 line).
Proof.
  intros Hp Hf Hl Hu Hun Hs Hsn.
  assert (Hfu : str_falsy url = false) by now apply str_falsy_false.
  assert (Hfs : str_falsy sec = false) by now apply str_falsy_false.
  assert (Hb : configure args env
    = Returns (mkRawConfig (parseInt (default "4000" (env !! "PORT"))) sec
               (mkRawDatabase (default "postgres" (env !! "DATABASE_TYPE")) url)
               (default "veilmail_webhook_events" (env !! "TABLE_NAME")))).
  { unfold buildConfig. rewrite Hp, Hf, Hl, Hu, Hs.
    cbn [file_port file_secret file_database file_tableName default from_option id
         raw_url raw_database raw_secret].
    now rewrite Hfu, Hfs. }
  split; [exact Hb|]. split.
  - intros config Hc. rewrite Hb. unfold loadConfigFromEnv in Hc. rewrite Hu, Hs in Hc.
    cbn [default from_option id] in Hc. rewrite Hfu, Hfs in Hc.
    destruct (negb _); [discriminate|]. exact Hc.
  - intros Hn. unfold loadConfigFromEnv. rewrite Hu, Hs.
    cbn [default from_option id]. rewrite Hfu, Hfs.
    rewrite bool_decide_eq_false_2 by exact Hn. cbn [negb]. eauto.
Qed.

Lemma buildConfig_Returns (args : list string) (env : gmap string string) (config : RawConfig) :
  configure args env = Returns config ->
  raw_url (raw_database config) <> EmptyString /\ raw_secret config <> EmptyString.
Proof.
  assert (He : loadConfigFromEnv env = Returns config ->
               raw_url (raw_database config) <> EmptyString /\
               raw_secret config <> EmptyString).
  { intros H. destruct (loadConfigFromEnv_Returns env config H) as (Hu & Hs & _).
    now split. }
  unfold buildConfig. destruct (parseArgs args) as [path|]; [|exact He].
  destruct (str_falsy path); [exact He|].
  destruct (loadConfigFromFile path) as [fileConfig|e]; [|discriminate].
  cbv zeta.
  destruct (str_falsy (raw_url (raw_database _))) eqn:Hu; [discriminate|].
  destruct (str_falsy (raw_secret _)) eqn:Hs; [discriminate|].
  intros [= <-]. split; now apply str_falsy_false.
Qed.

Lemma createAdapter_at_runtime_Ok (d : RawDatabaseConfig) (tableName : option string)
    (adapter : Adapter) :
  createAdapter_at_runtime d tableName = Ok adapter ->
  exists t, raw_type d = type_name t /\
            adapter = createAdapter (mkDatabaseConfig t (raw_url d)) tableName.
Proof.
  unfold createAdapter_at_runtime.
  repeat case_bool_decide; intros [= <-];
    [exists postgres | exists mysql | exists sqlite]; split; assumption || reflexivity.
Qed.

Lemma startup_Ok (a a' : Adapter) (w w' : World) :
  startup a w = Ok (a', w') ->
  connected a' w' = true /\
  is_Some (tables w' !! adapter_table a') /\
  adapter_kind a' = adapter_kind a /\
  adapter_table a' = adapter_table a /\
  driver_installed w = true.
Proof.
  unfold startup. intros H.
  adapter_cases a; destruct (driver_installed w); cbn in H; try discriminate;
    destruct (reachable w) eqn:Hr; cbn in H; try discriminate.
  - injection H as <- <-. cbn. rewrite Hr.
    repeat split; auto using sql_create_table_exists.
  - injection H as <- <-. cbn. rewrite Hr.
    repeat split; auto using sql_create_table_exists.
  - destruct (wal_ok w); cbn in H; [|discriminate]. injection H as <- <-. cbn.
    repeat split; auto using sql_create_table_exists.
Qed.

(** X27: when [main] gets as far as starting the server, the
    configuration has a database URL and a secret that are not empty and
    a type that is one of the three backends, the adapter is of that
    type, is connected and has the configured table name, and that table
    exists. *)
Theorem X27_main_reaches_the_server_ready (args : list string) (env : gmap string string)
    (w w' : World) (config : RawConfig) (adapter : Adapter) :
  run_main args env w = Returns (config, adapter, w') ->
  raw_url (raw_database config) <> EmptyString /\
  raw_secret config <> EmptyString /\
  raw_type (raw_database config) = type_name (adapter_kind adapter) /\
  adapter_table adapter = raw_tableName config /\
  connected adapter w' = true /\
  is_Some (tables w' !! raw_tableName config).
Proof.
  unfold main. destruct (configure args env) as [c|code line|e] eqn:Hb; try discriminate.
  destruct (createAdapter_at_runtime _ _) as [a0|e] eqn:Hc; [|discriminate].
  destruct (startup a0 w) as [[a1 w1]|e] eqn:Hs; [|discriminate].
  intros [= <- <- <-].
  destruct (buildConfig_Returns _ _ _ Hb) as [Hu Hsec].
  destruct (createAdapter_at_runtime_Ok _ _ _ Hc) as (t & Ht & ->).
  destruct (startup_Ok _ _ _ _ Hs) as (Hcon & Htab & Hk & Hn & _).
  rewrite kind_of_created in Hk. cbn [db_type] in Hk.
  assert (Hname : adapter_table a1 = raw_tableName c).
  { rewrite Hn. unfold createAdapter. cbn [db_type]. destruct t; reflexivity. }
  repeat split; try assumption.
  - now rewrite Hk.
  - now rewrite <- Hname.
Qed.

(** X28: the type a configuration file gives is checked by nothing before
    [createAdapter].  With a file whose database has a URL and a type that
    is none of the three, and whose secret is not empty, [buildConfig]
    returns, [createAdapter] throws in its [default] branch, and [main]
    ends the process with code 1 through its [catch]. *)
Theorem X28_unsupported_type_in_file (args : list string) (path secret : string)
    (fileConfig : PartialConfig) (d : RawDatabaseConfig) (env : gmap string string) (w : World) :
  parseArgs args = Some path ->
  str_falsy path = false ->
  loadConfigFromFile path = Ok fileConfig ->
  file_database fileConfig = Some d ->
  file_secret fileConfig = Some secret ->
  raw_url d <> EmptyString ->
  secret <> EmptyString ->
  raw_type d ∉ supported_types ->
  (exists config, configure args env = Returns config /\ raw_database config = d) /\
  (forall tableName,
     createAdapter_at_runtime d tableName
     = Throw (Error ("Unsupported database type: " +:+ dq +:+ raw_type d +:+ dq +:+
                     ". Supported types: postgres, mysql, sqlite"))) /\
  run_main args env w = Exits 1 "[webhook-ingester] Fatal error:".
Proof.
  intros Hp Hf Hl Hd Hs Hu Hsec Ht.
  apply str_falsy_false in Hu, Hsec.
  assert (Hc : forall tableName,
     createAdapter_at_runtime d tableName
     = Throw (Error ("Unsupported database type: " +:+ dq +:+ raw_type d +:+ dq +:+
                     ". Supported types: postgres, mysql, sqlite"))).
  { intros tableName. unfold createAdapter_at_runtime, supported_types in *.
    repeat case_bool_decide; try reflexivity; exfalso; apply Ht; set_solver. }
  set (config := mkRawConfig
         (match file_port fileConfig with
          | Some p => Some p
          | None => parseInt (default "4000" (env !! "PORT"))
          end) secret d
         (default (default "veilmail_webhook_events" (env !! "TABLE_NAME"))
                  (file_tableName fileConfig))).
  assert (Hb : configure args env = Returns config).
  { unfold buildConfig. rewrite Hp, Hf, Hl, Hd, Hs.
    cbn [default from_option id raw_url raw_database raw_secret].
    now rewrite Hu, Hsec. }
  split; [exists config; split; [exact Hb | reflexivity]|].
  split; [exact Hc|].
  unfold main. rewrite Hb. cbn [raw_database config]. now rewrite Hc.
Qed.

End CliFacts.

Lemma X25_witness :
  parseArgs ["--config"; "full.json"] = Some "full.json" /\
  example_loadConfigFromFile "full.json" = Ok example_file_config /\
  buildConfig example_loadConfigFromFile ["--config"; "full.json"] example_env
  = buildConfig example_loadConfigFromFile ["--config"; "full.json"] ∅.
Proof.
  split; [reflexivity|]. split; [reflexivity|].
  apply (X25_file_hides_environment example_loadConfigFromFile ["--config"; "full.json"]
           "full.json" example_file_config example_env ∅);
    try reflexivity; cbn; eauto.
Defined.

Lemma X26_witness :
  parseArgs ["-c"; "empty.json"] = Some "empty.json" /\
  example_env_2 !! "DATABASE_TYPE" = Some "oracle" /\
  buildConfig example_loadConfigFromFile ["-c"; "empty.json"] example_env_2
  = Returns (mkRawConfig (parseInt (default "4000" (example_env_2 !! "PORT"))) "k"
               (mkRawDatabase (default "postgres" (example_env_2 !! "DATABASE_TYPE")) "events.db")
               (default "veilmail_webhook_events" (example_env_2 !! "TABLE_NAME"))) /\
  (forall config, loadConfigFromEnv example_env_2 = Returns config ->
                  buildConfig example_loadConfigFromFile ["-c"; "empty.json"] example_env_2
                  = Returns config) /\
  (default "postgres" (example_env_2 !! "DATABASE_TYPE") ∉ supported_types ->
   exists line, loadConfigFromEnv example_env_2 = Exits 1 line).
Proof.
  split; [reflexivity|]. split; [vm_compute; reflexivity|].
  apply (X26_empty_file_skips_the_type_check example_loadConfigFromFile ["-c"; "empty.json"]
           "empty.json" "events.db" "k" example_env_2).
  - reflexivity.
  - reflexivity.
  - reflexivity.
  - vm_compute. reflexivity.
  - discriminate.
  - vm_compute. reflexivity.
  - discriminate.
Defined.

Lemma X27_witness :
  let adapter :=
    OfSqlite (SqliteAdapter.new (Some "events.db") "events.db" "veilmail_webhook_events") in
  main example_loadConfigFromFile [] example_env example_empty_world
  = Returns (example_env_config, adapter, example_empty_world) /\
  raw_url (raw_database example_env_config) <> EmptyString /\
  raw_secret example_env_config <> EmptyString /\
  raw_type (raw_database example_env_config) = type_name (adapter_kind adapter) /\
  adapter_table adapter = raw_tableName example_env_config /\
  connected adapter example_empty_world = true /\
  is_Some (tables example_empty_world !! raw_tableName example_env_config).
Proof.
  intros adapter.
  assert (H : main example_loadConfigFromFile [] example_env example_empty_world
              = Returns (example_env_config, adapter, example_empty_world))
    by (vm_compute; reflexivity).
  split; [exact H|].
  exact (X27_main_reaches_the_server_ready example_loadConfigFromFile [] example_env
           example_empty_world example_empty_world example_env_config adapter H).
Defined.

Lemma X28_witness :
  parseArgs ["--config"; "oracle.json"] = Some "oracle.json" /\
  (exists config,
     buildConfig example_loadConfigFromFile ["--config"; "oracle.json"] example_env
     = Returns config /\
     raw_database config = mkRawDatabase "oracle" "oracle://db") /\
  (forall tableName,
     createAdapter_at_runtime (mkRawDatabase "oracle" "oracle://db") tableName
     = Throw (Error ("Unsupported database type: " +:+ dq +:+ "oracle" +:+ dq +:+
                     ". Supported types: postgres, mysql, sqlite"))) /\
  main example_loadConfigFromFile ["--config"; "oracle.json"] example_env example_empty_world
  = Exits 1 "[webhook-ingester] Fatal error:".
Proof.
  split; [reflexivity|].
  apply (X28_unsupported_type_in_file example_loadConfigFromFile ["--config"; "oracle.json"]
           "oracle.json" "s"
           (mkPartial None (Some "s") (Some (mkRawDatabase "oracle" "oracle://db")) None)
           (mkRawDatabase "oracle" "oracle://db") example_env example_empty_world).
  - reflexivity.
  - reflexivity.
  - reflexivity.
  - reflexivity.
  - reflexivity.
  - discriminate.
  - discriminate.
  - unfold supported_types. cbn [raw_type]. intros H.
    repeat (apply elem_of_cons in H as [H|H]; [discriminate|]).
    now apply elem_of_nil in H.
Defined.

(** ** Shutdown *)

